(** * Airfoils_Toolkit: [airfoil_toolkit/airfoil.py]

  A shallow embedding of the [Airfoil] class: construction through the
  coordinate providers, [write_dat] and [generate_polars_xfoil].

  Python values are modelled as follows.
  - [str] is [string]; a text is split and joined at the line feed.
  - A [float] that is a coordinate, an angle or a Reynolds number is a
    rational [Q]: every finite binary float is a rational, and the [%f]
    conversion rounds that exact value.  The NaN, the infinities and the
    negative zero are outside the model, and a numeral that is read back
    is taken at its exact decimal value, not converted to a binary float.
  - An [N x 2] array of coordinates is a list of pairs, in row order.
  - An object is a record of its attributes; an attribute that has not been
    assigned yet is [None] of an [option].
  - A call either returns or raises; what it did to the outside world (the
    file system, the XFoil process) is threaded through as a state, together
    with the log of the calls made to the imported functions. *)

From Stdlib Require Import List String Ascii ZArith QArith Qabs Bool Lia.
Import ListNotations.

Local Open Scope string_scope.
Local Open Scope list_scope.

(** ** Exceptions and results *)

Module Py.

(** An exception instance: its class, the proper ancestors of that class,
    and its message.  [except C] catches an instance of [C] or of a
    subclass of [C]. *)
Record exn : Type := mk_exn {
  exn_class : string;
  exn_bases : list string;
  exn_msg : string
}.

Definition isinstance (e : exn) (c : string) : bool :=
  String.eqb (exn_class e) c || existsb (String.eqb c) (exn_bases e).

Definition Exception (msg : string) : exn :=
  mk_exn "Exception" ["BaseException"] msg.

Definition TypeError (msg : string) : exn :=
  mk_exn "TypeError" ["Exception"; "BaseException"] msg.

Definition ValueError (msg : string) : exn :=
  mk_exn "ValueError" ["Exception"; "BaseException"] msg.

Definition NotImplementedError (msg : string) : exn :=
  mk_exn "NotImplementedError" ["RuntimeError"; "Exception"; "BaseException"]
    msg.

Definition FileNotFoundError (msg : string) : exn :=
  mk_exn "FileNotFoundError" ["OSError"; "Exception"; "BaseException"] msg.

Definition RuntimeError (msg : string) : exn :=
  mk_exn "RuntimeError" ["Exception"; "BaseException"] msg.

Inductive result (A : Type) : Type :=
| Ok (a : A)
| Raise (e : exn).

Arguments Ok {A} a.
Arguments Raise {A} e.

Definition is_ok {A} (r : result A) : bool :=
  match r with Ok _ => true | Raise _ => false end.

End Py.

Import Py.

(** ** The data of an airfoil *)

(** A row of the coordinate array, and the array.  The entries are the
    finite values: the NaN, the infinities and the negative zero that an
    array of floats can also hold have no counterpart here. *)
Definition point : Type := (Q * Q)%type.
Definition coords : Type := list point.

(** What [self.coordinates] can hold: the constructor's argument is stored
    there first ([None] or the path), and the array replaces it. *)
Inductive coord_val : Type :=
| PyNone
| PyPath (path : string)
| PyArray (c : coords).

(** The dictionary [run_xfoil] returns for one Reynolds number, as
    [plot_polars] reads it. *)
Record run_data : Type := mk_run_data {
  alpha : list Q;
  CL : list Q;
  CD : list Q;
  CM : list Q
}.

(** The attributes of an [Airfoil] instance.  [x], [y], [polars] and [Res]
    do not exist until they are assigned. *)
Record obj : Type := mk_obj {
  name : string;
  coordinates : coord_val;
  x : option (list Q);
  y : option (list Q);
  polars : option (list run_data);
  Res : option (list Q)
}.

Definition set_name (v : string) (o : obj) : obj :=
  mk_obj v (coordinates o) (x o) (y o) (polars o) (Res o).
Definition set_coordinates (v : coord_val) (o : obj) : obj :=
  mk_obj (name o) v (x o) (y o) (polars o) (Res o).
Definition set_x (v : list Q) (o : obj) : obj :=
  mk_obj (name o) (coordinates o) (Some v) (y o) (polars o) (Res o).
Definition set_y (v : list Q) (o : obj) : obj :=
  mk_obj (name o) (coordinates o) (x o) (Some v) (polars o) (Res o).
Definition set_polars (v : list run_data) (o : obj) : obj :=
  mk_obj (name o) (coordinates o) (x o) (y o) (Some v) (Res o).
Definition set_Res (v : list Q) (o : obj) : obj :=
  mk_obj (name o) (coordinates o) (x o) (y o) (polars o) (Some v).

(** The instance [__init__] receives: no attribute is assigned yet (the
    name is a placeholder until the first statement assigns it). *)
Definition fresh_obj : obj := mk_obj EmptyString PyNone None None None None.

(** The arguments of one call [run_xfoil(self, alpha_i, alpha_f, alpha_step,
    Re, n_iter, working_directory)]. *)
Record xfoil_args : Type := mk_xfoil_args {
  xa_self : obj;
  xa_alpha_i : Q;
  xa_alpha_f : Q;
  xa_alpha_step : Q;
  xa_Re : Q;
  xa_n_iter : Z;
  xa_working_directory : option string
}.

(** The calls to the imported functions, as they are logged. *)
Inductive call : Type :=
| CallNACA (name : string)
| CallUIUC (name : string)
| CallFile (path : string)
| CallXfoil (a : xfoil_args)
| CallWrite (path : string) (text : string).

(** The imported functions.  [get_NACA_coordinates], [get_UIUC_coordinates]
    and [get_file_coordinates] come from aerosandbox; [run_xfoil] is
    [airfoil_toolkit.xfoil.run_xfoil]; [write_file] is the [open] and
    [f.write] of [write_dat].  Each one acts on the outside world and
    returns or raises.  [run_xfoil] is not among the sources: it is given
    the airfoil to read, as the solver interface of the specification says
    (it accepts the geometry and the sweep parameters and returns a record
    or fails), and it assigns no attribute of it. *)
Record externals (World : Type) : Type := mk_externals {
  get_NACA_coordinates : string -> World -> World * result coords;
  get_UIUC_coordinates : string -> World -> World * result coords;
  get_file_coordinates : string -> World -> World * result coords;
  run_xfoil : xfoil_args -> World -> World * result run_data;
  write_file : string -> string -> World -> World * result unit
}.

Arguments get_NACA_coordinates {World} _ _ _.
Arguments get_UIUC_coordinates {World} _ _ _.
Arguments get_file_coordinates {World} _ _ _.
Arguments run_xfoil {World} _ _ _.
Arguments write_file {World} _ _ _.

(** ** A state and exception monad for the methods *)

Module Eff.

(** The state a method runs in: the outside world, the log of the calls
    made so far (oldest first) and the attributes of [self]. *)
Record state (World : Type) : Type := mk_state {
  world : World;
  trace : list call;
  self : obj
}.

Arguments mk_state {World} _ _ _.
Arguments world {World} _.
Arguments trace {World} _.
Arguments self {World} _.

Definition M (World A : Type) : Type :=
  state World -> state World * result A.

Definition ret {W A} (a : A) : M W A := fun s => (s, Ok a).

Definition bind {W A B} (m : M W A) (k : A -> M W B) : M W B :=
  fun s =>
    match m s with
    | (s', Ok a) => k a s'
    | (s', Raise e) => (s', Raise e)
    end.

Definition raise {W A} (e : exn) : M W A := fun s => (s, Raise e).

(** [try: m  except classes: h]: an exception of [m] that is an instance
    of one of [classes] is handled by [h], in the state [m] left. *)
Definition try_except {W A} (m : M W A) (classes : list string) (h : M W A)
  : M W A :=
  fun s =>
    match m s with
    | (s', Ok a) => (s', Ok a)
    | (s', Raise e) =>
        if existsb (isinstance e) classes then h s' else (s', Raise e)
    end.

Definition get_self {W} : M W obj := fun s => (s, Ok (self s)).

Definition modify_self {W} (f : obj -> obj) : M W unit :=
  fun s => (mk_state (world s) (trace s) (f (self s)), Ok tt).

(** A call to an imported function: it is logged, then it acts. *)
Definition extern {W A} (c : call) (f : W -> W * result A) : M W A :=
  fun s =>
    let (w', r) := f (world s) in
    (mk_state w' (trace s ++ [c]) (self s), r).

(** Reading an attribute of [self]; one that was never assigned raises
    [AttributeError]. *)
Definition AttributeError (attr : string) : exn :=
  mk_exn "AttributeError" ["Exception"; "BaseException"]
    ("'Airfoil' object has no attribute '" ++ attr ++ "'").

Definition get_name {W} : M W string := fun s => (s, Ok (name (self s))).

Definition get_coordinates {W} : M W coord_val :=
  fun s => (s, Ok (coordinates (self s))).

Definition get_polars {W} : M W (list run_data) :=
  fun s =>
    match polars (self s) with
    | Some p => (s, Ok p)
    | None => (s, Raise (AttributeError "polars"))
    end.

End Eff.

Import Eff.

Declare Scope eff_scope.
Delimit Scope eff_scope with eff.
Notation "x <- m ;; k" := (bind m (fun x => k))
  (at level 61, m at next level, right associativity) : eff_scope.
Notation "m ;;; k" := (bind m (fun _ => k))
  (at level 61, right associativity) : eff_scope.

(** ** Texts and the [%f] conversion *)

Definition LF : ascii := ascii_of_nat 10.
Definition newline : string := String LF EmptyString.

(** The nearest integer, a tie going to the even one: the rounding of the
    exact value that the conversions of [printf] make. *)
Definition round_half_even (q : Q) : Z :=
  let n := Qnum q in
  let d := Zpos (Qden q) in
  let f := (n / d)%Z in
  let r := (n mod d)%Z in
  if (2 * r <? d)%Z then f
  else if (d <? 2 * r)%Z then (f + 1)%Z
  else if Z.even f then f else (f + 1)%Z.

(** The value in millionths, rounded. *)
Definition micro (q : Q) : Z := round_half_even (q * (1000000 # 1)).

Definition digit_char (d : Z) : ascii := ascii_of_nat (48 + Z.to_nat d).

(** The decimal digits of a natural number, the most significant first. *)
Fixpoint digits_fuel (fuel : nat) (n : Z) : list Z :=
  match fuel with
  | O => [n]
  | S f => if (n <? 10)%Z then [n] else digits_fuel f (n / 10) ++ [(n mod 10)%Z]
  end.

Definition digits (n : Z) : list Z := digits_fuel (Z.to_nat (Z.log2 n)) n.

(** The last [k] decimal digits, with the leading zeros. *)
Fixpoint fixed_digits (k : nat) (n : Z) : list Z :=
  match k with
  | O => []
  | S k' => fixed_digits k' (n / 10) ++ [(n mod 10)%Z]
  end.

Fixpoint string_of_digits (ds : list Z) : string :=
  match ds with
  | [] => EmptyString
  | d :: r => String (digit_char d) (string_of_digits r)
  end.

(** ["%f" % v] for a finite value [v]: the sign, the integer part, a point
    and six decimals.  (For the NaN and the infinities the conversion gives
    the words [nan], [inf] and [-inf], which are outside the model.) *)
Definition pyformat_f (q : Q) : string :=
  let a := Z.abs (micro q) in
  (if (Qnum q <? 0)%Z then "-" else EmptyString)
  ++ string_of_digits (digits (a / 1000000))
  ++ "."
  ++ string_of_digits (fixed_digits 6 (a mod 1000000)).

(** ["%f %f" % tuple(coordinate)] for a row of the array. *)
Definition format_row (p : point) : string :=
  pyformat_f (fst p) ++ " " ++ pyformat_f (snd p).

(** ** The methods of [Airfoil] *)

Module Airfoil.

Section Methods.

Context {World : Type} (env : externals World).

Local Open Scope eff_scope.

Definition no_coordinates_msg (name : string) : string :=
  "Airfoil " ++ name ++
  " had no coordinates assigned, and could not parse the `coordinates` input!".

(** [Airfoil.__init__(self, name, coordinates)]; [coordinates] is [None] or
    a path. *)
Definition __init__ (name : string) (coordinates : option string)
  : M World unit :=
  modify_self (set_name name) ;;;
  modify_self (set_coordinates
                 match coordinates with
                 | None => PyNone
                 | Some p => PyPath p
                 end) ;;;
  match coordinates with
  | None =>
      try_except
        (n <- get_name ;;
         c <- extern (CallNACA n) (get_NACA_coordinates env n) ;;
         modify_self (set_coordinates (PyArray c)))
        ["ValueError"; "NotImplementedError"]
        (try_except
           (n <- get_name ;;
            c <- extern (CallUIUC n) (get_UIUC_coordinates env n) ;;
            modify_self (set_coordinates (PyArray c)))
           ["FileNotFoundError"]
           (ret tt))
  | Some p =>
      c <- extern (CallFile p) (get_file_coordinates env p) ;;
      modify_self (set_coordinates (PyArray c))
  end ;;;
  v <- get_coordinates ;;
  match v with
  | PyNone =>
      n <- get_name ;;
      raise (Exception (no_coordinates_msg n))
  | PyArray c =>
      modify_self (set_x (map fst c)) ;;;
      modify_self (set_y (map snd c))
  | PyPath _ => raise (TypeError "string indices must be integers")
  end.

(** The expression [Airfoil(name, coordinates)]: [__init__] runs on a new
    instance, and the caller gets the instance only if it returns. *)
Definition new (name : string) (coordinates : option string) (w : World)
  : World * list call * result obj :=
  let (s, r) := __init__ name coordinates (mk_state w [] fresh_obj) in
  (world s, trace s,
   match r with
   | Ok _ => Ok (self s)
   | Raise e => Raise e
   end).

(** The rows [write_dat] formats, by iterating [self.coordinates]. *)
Definition formatted_rows (v : coord_val) : M World (list string) :=
  match v with
  | PyArray c => ret (map format_row c)
  | PyNone => raise (TypeError "'NoneType' object is not iterable")
  | PyPath EmptyString => ret []
  | PyPath _ => raise (TypeError "must be real number, not str")
  end.

(** [Airfoil.write_dat(self, filepath, include_name)]. *)
Definition write_dat (filepath : option string) (include_name : bool)
  : M World string :=
  let contents := [] in
  n <- get_name ;;
  let contents := if include_name then contents ++ [n] else contents in
  v <- get_coordinates ;;
  rows <- formatted_rows v ;;
  let contents := contents ++ rows in
  let text := String.concat newline contents in
  match filepath with
  | Some p => extern (CallWrite p text) (write_file env p text)
  | None => ret tt
  end ;;;
  ret text.

Definition call_xfoil (a : xfoil_args) : M World run_data :=
  extern (CallXfoil a) (run_xfoil env a).

(** The list comprehension over [tqdm(Res)]: one call per Reynolds number,
    in order; an exception leaves the comprehension at once.  The progress
    bar [tqdm] only hands the Reynolds numbers on, in order; it and the two
    imports the method makes when it is called are not modelled, and the log
    of calls has no entry for them. *)
Fixpoint run_datas (alpha_i alpha_f alpha_step : Q) (Res : list Q)
    (n_iter : Z) (working_directory : option string)
  : M World (list run_data) :=
  match Res with
  | [] => ret []
  | Re :: rest =>
      o <- get_self ;;
      d <- call_xfoil
             (mk_xfoil_args o alpha_i alpha_f alpha_step Re n_iter
                working_directory) ;;
      ds <- run_datas alpha_i alpha_f alpha_step rest n_iter
              working_directory ;;
      ret (d :: ds)
  end.

(** [Airfoil.generate_polars_xfoil(self, alpha_i, alpha_f, alpha_step, Res,
    n_iter, min_points_to_converged, working_directory)]. *)
Definition generate_polars_xfoil (alpha_i alpha_f alpha_step : Q)
    (Res : list Q) (n_iter : Z) (min_points_to_converged : Z)
    (working_directory : option string)
  : M World (list run_data) :=
  rd <- run_datas alpha_i alpha_f alpha_step Res n_iter working_directory ;;
  modify_self (set_polars rd) ;;;
  modify_self (set_Res Res) ;;;
  get_polars.

End Methods.

End Airfoil.

(** ** Lines and numerals of a text *)

(** [text.split(c)]: the pieces between the occurrences of [c]. *)
Fixpoint split_on (c : ascii) (s : string) : list string :=
  match s with
  | EmptyString => [EmptyString]
  | String a r =>
      if Ascii.eqb a c then EmptyString :: split_on c r
      else
        match split_on c r with
        | h :: t => String a h :: t
        | [] => [String a EmptyString]
        end
  end.

(** The lines of a text: [text.split("\n")]. *)
Definition lines_of (text : string) : list string := split_on LF text.

Fixpoint has_char (c : ascii) (s : string) : bool :=
  match s with
  | EmptyString => false
  | String a r => Ascii.eqb a c || has_char c r
  end.

Definition is_digit (c : ascii) : bool :=
  (48 <=? nat_of_ascii c)%nat && (nat_of_ascii c <=? 57)%nat.

Definition digit_value (c : ascii) : Z := Z.of_nat (nat_of_ascii c - 48).

(** The longest prefix of digits, as digit values, and what follows it. *)
Fixpoint span_digits (s : string) : list Z * string :=
  match s with
  | EmptyString => ([], EmptyString)
  | String c r =>
      if is_digit c
      then let (ds, rest) := span_digits r in (digit_value c :: ds, rest)
      else ([], s)
  end.

Definition is_digit_value (d : Z) : Prop := (0 <= d < 10)%Z.

Definition starts_with_digit (s : string) : bool :=
  match s with
  | String c _ => is_digit c
  | EmptyString => false
  end.

Definition of_digits (ds : list Z) : Z :=
  fold_left (fun acc d => (acc * 10 + d)%Z) ds 0%Z.

(** An optional minus sign in front of a numeral. *)
Definition strip_minus (s : string) : bool * string :=
  match s with
  | String c r => if Ascii.eqb c "-" then (true, r) else (false, s)
  | EmptyString => (false, s)
  end.

(** The value of a decimal numeral: an optional minus sign, one digit or
    more, and optionally a point and decimals.  A numeral with [k] decimals
    has the denominator [10^k]. *)
Definition decimal_value (s : string) : option Q :=
  let (neg, body) := strip_minus s in
  let sign (v : Z) := if neg then (- v)%Z else v in
  let (ip, rest) := span_digits body in
  match ip, rest with
  | [], _ => None
  | _, EmptyString => Some (sign (of_digits ip) # 1)
  | _, String c fr =>
      if Ascii.eqb c "."
      then
        let (fp, rest') := span_digits fr in
        match rest' with
        | EmptyString =>
            Some (sign (of_digits (ip ++ fp))
                  # Pos.pow 10 (Pos.of_nat (List.length fp)))
        | _ => None
        end
      else None
  end.

(** A fixed-point numeral with exactly six decimals: an optional minus sign,
    one digit or more, a point, six digits. *)
Definition is_fixed6 (s : string) : bool :=
  let (ip, rest) := span_digits (snd (strip_minus s)) in
  match ip, rest with
  | _ :: _, String c fr =>
      let (fp, rest') := span_digits fr in
      Ascii.eqb c "." && (List.length fp =? 6)%nat
      && String.eqb rest' EmptyString
  | _, _ => false
  end.

(** Whether a text ends with a line feed. *)
Fixpoint ends_with_LF (s : string) : bool :=
  match s with
  | EmptyString => false
  | String c EmptyString => Ascii.eqb c LF
  | String _ r => ends_with_LF r
  end.

(** A value rounded to six decimals, over the denominator [10^6]. *)
Definition round6 (q : Q) : Q := micro q # 1000000.

Definition round6_point (p : point) : point :=
  (round6 (fst p), round6 (snd p)).

(** Two coordinate arrays that agree up to six decimals: the same number of
    rows, and row by row neither component is off by more than half a
    millionth. *)
Definition close6 (a b : Q) : Prop := Qabs (a - b) <= 1 # 2000000.

Definition coords_close6 (C' C : coords) : Prop :=
  Forall2 (fun p' p => close6 (fst p') (fst p) /\ close6 (snd p') (snd p))
    C' C.

(** ** The text of a coordinate file, in the words of the specification *)

(** One line per coordinate: two fixed-point numerals with six decimals, a
    single space between them; the lines are separated by single line feeds
    and nothing follows the last one. *)
Fixpoint coordinate_lines (numeral : Q -> string) (C : coords) : string :=
  match C with
  | [] => EmptyString
  | [p] => numeral (fst p) ++ " " ++ numeral (snd p)
  | p :: C' =>
      numeral (fst p) ++ " " ++ numeral (snd p) ++ newline
      ++ coordinate_lines numeral C'
  end.

(** The optional name line, verbatim, then the coordinate lines. *)
Definition dat_text (numeral : Q -> string) (n : string) (C : coords)
    (include_name : bool) : string :=
  if include_name
  then
    match C with
    | [] => n
    | _ => n ++ newline ++ coordinate_lines numeral C
    end
  else coordinate_lines numeral C.

(** ** Reading a coordinate file *)

(** The words of a line: the non-empty pieces between the spaces. *)
Definition words (l : string) : list string :=
  filter (fun w => negb (String.eqb w EmptyString)) (split_on " " l).

(** A coordinate line: two numerals. *)
Definition parse_line (l : string) : option point :=
  match words l with
  | [a; b] =>
      match decimal_value a, decimal_value b with
      | Some u, Some v => Some (u, v)
      | _, _ => None
      end
  | _ => None
  end.

Definition CoordinateFileParseError (line : string) : exn :=
  mk_exn "CoordinateFileParseError" ["Exception"; "BaseException"] line.

Fixpoint parse_rows (ls : list string) : result coords :=
  match ls with
  | [] => Ok []
  | l :: rest =>
      match parse_line l with
      | None => Raise (CoordinateFileParseError l)
      | Some p =>
          match parse_rows rest with
          | Ok ps => Ok (p :: ps)
          | Raise e => Raise e
          end
      end
  end.

(** Modelled from the spec: the reader of the coordinate file format, which
    is [get_file_coordinates] of aerosandbox and is not among the sources.
    The text is one coordinate pair per line as two space-separated decimal
    numbers; a first line that is not numeric data is the name line and is
    skipped; malformed content is a [CoordinateFileParseError]. *)
Definition read_dat (text : string) : result coords :=
  match lines_of text with
  | [] => Ok []
  | first :: rest =>
      match parse_line first with
      | None => parse_rows rest
      | Some _ => parse_rows (first :: rest)
      end
  end.

(** ** Fakes of the imported functions, for concrete runs *)

(** The arguments of the call for one Reynolds number of a sweep. *)
Definition sweep_call (o : obj) (alpha_i alpha_f alpha_step : Q) (n_iter : Z)
    (working_directory : option string) (Re : Q) : call :=
  CallXfoil
    (mk_xfoil_args o alpha_i alpha_f alpha_step Re n_iter working_directory).

Module Fake.

(** The outside world of the fakes: how many solver runs were started. *)
Definition World : Type := nat.

Definition solver_crash : exn := RuntimeError "XFoil exited with an error".

Definition curve (Re : Q) : run_data :=
  mk_run_data [0; 5; 10] [Re; Re; Re] [1; 1; 1] [0; 0; 0].

(** A solver that fails at the Reynolds number [1e5] and returns a curve at
    every other one. *)
Definition run_xfoil (a : xfoil_args) (w : World) : World * result run_data :=
  if Qeq_bool (xa_Re a) 100000 then (S w, Raise solver_crash)
  else (S w, Ok (curve (xa_Re a))).

Definition square : coords := [(1, 0); (0, 1); (0, 0); (1, 0)].

(** A generator that knows the name ["naca0012"] only. *)
Definition get_NACA_coordinates (n : string) (w : World)
  : World * result coords :=
  if String.eqb n "naca0012" then (w, Ok square)
  else (w, Raise (ValueError "not a NACA airfoil")).

(** A database that knows the name ["e423"] only. *)
Definition get_UIUC_coordinates (n : string) (w : World)
  : World * result coords :=
  if String.eqb n "e423" then (w, Ok square)
  else (w, Raise (FileNotFoundError "not in the UIUC database")).

(** A file system with the one file ["wing.dat"]. *)
Definition get_file_coordinates (p : string) (w : World)
  : World * result coords :=
  if String.eqb p "wing.dat" then (w, Ok square)
  else (w, Raise (FileNotFoundError "no such file")).

Definition write_file (p text : string) (w : World) : World * result unit :=
  (w, Ok tt).

Definition env : externals World :=
  mk_externals World get_NACA_coordinates get_UIUC_coordinates
    get_file_coordinates run_xfoil write_file.

(** An airfoil as the constructor leaves it. *)
Definition wing : obj :=
  mk_obj "wing" (PyArray square) (Some (map fst square))
    (Some (map snd square)) None None.

(** The airfoil [Airfoil("0.500000 0.500000", "wing.dat")]: its name reads as
    a coordinate line. *)
Definition numbered : obj :=
  mk_obj "0.500000 0.500000" (PyArray square) (Some (map fst square))
    (Some (map snd square)) None None.

(** The airfoil [Airfoil("wing\n", "wing.dat")]: its name ends with a line
    feed, as a line read from a file does. *)
Definition trailing : obj :=
  mk_obj (String.append "wing" newline) (PyArray square)
    (Some (map fst square)) (Some (map snd square)) None None.

(** An airfoil whose array has no row. *)
Definition hollow : obj :=
  mk_obj "wing" (PyArray []) (Some []) (Some []) None None.

End Fake.

(** ** Rendering: [__repr__], [draw] and [plot_polars] *)

(** The calls to matplotlib, to aerosandbox's [pretty_plots] and to plotly,
    with the arguments the methods give them. *)
Inductive plot_call : Type :=
| PltSubplots (nrows ncols : Z) (figsize : Q * Q)
| AxPlot (row col : Z) (xs ys : list Q)
| AxSet (row col : Z) (xlabel ylabel : string)
| PltSca (row col : Z)
| PltLegend (title : string) (labels : list string) (ncol fontsize : Z)
    (loc : string)
| PltPlot (xs ys : list Q) (fmt : string) (zorder : Z) (color : string)
| PltFill (xs ys : list Q) (zorder : Z) (color : string) (opacity : Q)
| PltAxis (arg : string)
| ShowPlot (title xlabel ylabel : string)
| GoFigure
| FigAddScatter (xs ys : list Q) (mode trace_name fill line_color : string)
| FigUpdateLayout (xaxis_title yaxis_title scaleanchor : string)
    (scaleratio : Z) (title : string)
| FigShow.

(** The plotting libraries, each call of which acts on the outside world and
    returns or raises, and [eng_string] of [airfoil_toolkit.aux], which is
    not among the sources and is taken as a function from a Reynolds number
    to its label. *)
Record plotting (World : Type) : Type := mk_plotting {
  do_plot : plot_call -> World -> World * result unit;
  eng_string : Q -> string
}.

Arguments do_plot {World} _ _ _.
Arguments eng_string {World} _ _.

(** What [draw] returns: [None], or the plotly figure. *)
Inductive draw_value : Type :=
| DrawNone
| DrawFigure.

Module AirfoilPlots.

Section Methods.

Context {World : Type} (penv : plotting World).

Local Open Scope eff_scope.

(** The rendering methods run in a world that also holds the list of the
    plotting calls made so far, oldest first. *)
Definition plt (c : plot_call) : M (World * list plot_call) unit :=
  fun s =>
    let (w', r) := do_plot penv c (fst (world s)) in
    (mk_state (w', snd (world s) ++ [c]) (trace s) (self s), r).

Definition get_x : M (World * list plot_call) (list Q) :=
  fun s =>
    match x (self s) with
    | Some v => (s, Ok v)
    | None => (s, Raise (AttributeError "x"))
    end.

Definition get_y : M (World * list plot_call) (list Q) :=
  fun s =>
    match y (self s) with
    | Some v => (s, Ok v)
    | None => (s, Raise (AttributeError "y"))
    end.

Definition get_Res : M (World * list plot_call) (list Q) :=
  fun s =>
    match Res (self s) with
    | Some v => (s, Ok v)
    | None => (s, Raise (AttributeError "Res"))
    end.

(** [Airfoil.__repr__(self)]. *)
Definition __repr__ : M (World * list plot_call) string :=
  n <- get_name ;;
  ret ("Airfoil " ++ n)%string.

(** [Airfoil.draw(self, draw_mcl, draw_markers, backend, show)]. *)
Definition draw (draw_mcl draw_markers : bool) (backend : string)
    (show : bool) : M (World * list plot_call) draw_value :=
  xs <- get_x ;;
  ys <- get_y ;;
  if String.eqb backend "matplotlib" then
    let color := "#280887" in
    plt (PltPlot xs ys (if draw_markers then ".-" else "-") 11 color) ;;;
    plt (PltFill xs ys 10 color (2 # 10)) ;;;
    plt (PltAxis "equal") ;;;
    if show then
      n <- get_name ;;
      plt (ShowPlot (n ++ " Airfoil")%string "$x/c$" "$y/c$") ;;;
      ret DrawNone
    else ret DrawNone
  else if String.eqb backend "plotly" then
    plt GoFigure ;;;
    plt (FigAddScatter xs ys
           (if draw_markers then "lines+markers" else "lines")
           "Airfoil" "toself" "blue") ;;;
    n <- get_name ;;
    plt (FigUpdateLayout "x/c" "y/c" "x" 1 (n ++ " Airfoil")%string) ;;;
    if show then plt FigShow ;;; ret DrawNone
    else ret DrawFigure
  else ret DrawNone.

(** The body of the loop of [plot_polars], for every record of the
    dataset in turn. *)
Fixpoint plot_curves (ds : list run_data) : M (World * list plot_call) unit :=
  match ds with
  | [] => ret tt
  | data :: rest =>
      plt (AxPlot 0 0 (alpha data) (CL data)) ;;;
      plt (AxSet 0 0 "Angle of Attack $\alpha$ [deg]"
             "Lift Coefficient $C_L$") ;;;
      plt (AxPlot 0 1 (alpha data) (CD data)) ;;;
      plt (AxSet 0 1 "Angle of Attack $\alpha$ [deg]"
             "Drag Coefficient $C_D$") ;;;
      plt (AxPlot 1 0 (alpha data) (CM data)) ;;;
      plt (AxSet 1 0 "Angle of Attack $\alpha$ [deg]"
             "Moment Coefficient $C_m$") ;;;
      plt (AxPlot 1 1 (CL data) (CD data)) ;;;
      plt (AxSet 1 1 "Angle of Attack $\alpha$ [deg]"
             "Lift-to-Drag Ratio $C_L/C_D$") ;;;
      plot_curves rest
  end.

(** [Airfoil.plot_polars(self)]. *)
Definition plot_polars : M (World * list plot_call) unit :=
  plt (PltSubplots 2 2 (9, 8)) ;;;
  ds <- get_polars ;;
  plot_curves ds ;;;
  plt (PltSca 0 0) ;;;
  Rs <- get_Res ;;
  plt (PltLegend "Reynolds Number" (map (eng_string penv) Rs) 2 8
         "lower right").

End Methods.

End AirfoilPlots.

(** The curves drawn on one panel, and the legends, of a list of plotting
    calls. *)
Fixpoint plots_on (row col : Z) (log : list plot_call)
  : list (list Q * list Q) :=
  match log with
  | [] => []
  | AxPlot r c xs ys :: rest =>
      if (r =? row)%Z && (c =? col)%Z
      then (xs, ys) :: plots_on row col rest
      else plots_on row col rest
  | _ :: rest => plots_on row col rest
  end.

Fixpoint legends (log : list plot_call) : list (list string) :=
  match log with
  | [] => []
  | PltLegend _ labels _ _ _ :: rest => labels :: legends rest
  | _ :: rest => legends rest
  end.

(** A plotting library that draws nothing and never raises, with the labels
    of the Reynolds numbers left empty. *)
Definition quiet_plotting : plotting nat :=
  mk_plotting nat (fun _ w => (S w, Ok tt)) (fun _ => EmptyString).

(** Providers and a file system that fail in ways the constructor and
    [write_dat] do not handle. *)
Module Faulty.

Definition PermissionError (msg : string) : exn :=
  mk_exn "PermissionError" ["OSError"; "Exception"; "BaseException"] msg.

(** A generator that raises a [TypeError] for the name ["bad"] and declines
    every other name. *)
Definition get_NACA_coordinates (n : string) (w : nat)
  : nat * result coords :=
  if String.eqb n "bad" then (w, Raise (TypeError "name must be a string"))
  else (w, Raise (ValueError "not a NACA airfoil")).

(** A database that cannot be read. *)
Definition get_UIUC_coordinates (n : string) (w : nat)
  : nat * result coords :=
  (w, Raise (PermissionError "cannot read the database")).

(** A file system that cannot be written. *)
Definition write_file (p text : string) (w : nat) : nat * result unit :=
  (w, Raise (PermissionError "read-only file system")).

Definition env : externals nat :=
  mk_externals nat get_NACA_coordinates get_UIUC_coordinates
    Fake.get_file_coordinates Fake.run_xfoil write_file.

End Faulty.

(** ** The runs of the solver in a sweep *)

Section SolverRuns.

Context {World : Type} (env : externals World).

(** The arguments of the run for each Reynolds number. *)
Variable args : Q -> xfoil_args.

(** [solver_returns w Rs w' ds]: started in the world [w], the solver is run
    for the Reynolds numbers [Rs] one after the other, each run in the world
    the run before it left; every run returns, [ds] holds what they
    returned, in order, and [w'] is the world the last one left. *)
Inductive solver_returns : World -> list Q -> World -> list run_data -> Prop :=
| returns_nil (w : World) : solver_returns w [] w []
| returns_cons (w w1 w2 : World) (Re : Q) (Rs : list Q) (d : run_data)
    (ds : list run_data) :
    run_xfoil env (args Re) w = (w1, Ok d) ->
    solver_returns w1 Rs w2 ds ->
    solver_returns w (Re :: Rs) w2 (d :: ds).

(** [solver_raises w Rs w' e tried]: run in the same way, the solver
    returns for the Reynolds numbers before the last one of [tried] and
    raises [e] for that one, leaving the world [w']; [tried] is the start of
    [Rs] up to that Reynolds number. *)
Inductive solver_raises
  : World -> list Q -> World -> exn -> list Q -> Prop :=
| raises_here (w w1 : World) (Re : Q) (Rs : list Q) (e : exn) :
    run_xfoil env (args Re) w = (w1, Raise e) ->
    solver_raises w (Re :: Rs) w1 e [Re]
| raises_later (w w1 w2 : World) (Re : Q) (Rs : list Q) (d : run_data)
    (e : exn) (tried : list Q) :
    run_xfoil env (args Re) w = (w1, Ok d) ->
    solver_raises w1 Rs w2 e tried ->
    solver_raises w (Re :: Rs) w2 e (Re :: tried).

End SolverRuns.

(** * Properties *)

(** ** The monad *)

Section SweepFacts.

Context {World : Type} (env : externals World).

Variables (alpha_i alpha_f alpha_step : Q) (n_iter : Z)
  (working_directory : option string).

Local Notation "'run_all'" :=
  (Airfoil.run_datas env alpha_i alpha_f alpha_step).
Local Notation "'the_call' o" :=
  (sweep_call o alpha_i alpha_f alpha_step n_iter working_directory)
  (at level 10, o at level 9).
Local Notation "'the_args' o Re" :=
  (mk_xfoil_args o alpha_i alpha_f alpha_step Re n_iter working_directory)
  (at level 10, o at level 9, Re at level 9).
Local Notation "'sweep' Rs mp" :=
  (Airfoil.generate_polars_xfoil env alpha_i alpha_f alpha_step Rs n_iter mp
     working_directory)
  (at level 10, Rs at level 9, mp at level 9).

(** One turn of the comprehension. *)
Lemma run_datas_cons (Re : Q) (Rs : list Q) (s : state World) :
  run_all (Re :: Rs) n_iter working_directory s =
  match run_xfoil env (the_args (self s) Re) (world s) with
  | (w', Ok d) =>
      match run_all Rs n_iter working_directory
              (mk_state w' (trace s ++ [the_call (self s) Re]) (self s)) with
      | (s2, Ok ds) => (s2, Ok (d :: ds))
      | (s2, Raise e) => (s2, Raise e)
      end
  | (w', Raise e) =>
      (mk_state w' (trace s ++ [the_call (self s) Re]) (self s), Raise e)
  end.
Proof.
  simpl. unfold bind, get_self, Airfoil.call_xfoil, extern, sweep_call; simpl.
  destruct (run_xfoil env _ (world s)) as [w' [d|e]]; [|reflexivity].
  destruct (run_all Rs n_iter working_directory _) as [s2 [ds|e]];
    reflexivity.
Qed.

(** The comprehension never assigns to [self]. *)
Lemma run_datas_self (Rs : list Q) (s : state World) :
  self (fst (run_all Rs n_iter working_directory s)) = self s.
Proof.
  revert s; induction Rs as [|Re Rs IH]; intros s; [reflexivity|].
  rewrite run_datas_cons.
  destruct (run_xfoil env _ (world s)) as [w' [d|e]]; [|reflexivity].
  specialize (IH (mk_state w' (trace s ++ [the_call (self s) Re]) (self s))).
  destruct (run_all Rs n_iter working_directory _) as [s2 [ds|e]]; exact IH.
Qed.

(** A comprehension that completes called the solver once per Reynolds
    number, in order, and kept what each call returned, in order. *)
Lemma run_datas_ok (Rs : list Q) (s s' : state World) (ds : list run_data) :
  run_all Rs n_iter working_directory s = (s', Ok ds) ->
  trace s' = trace s ++ map (the_call (self s)) Rs /\
  Forall2 (fun Re d => exists w w',
             run_xfoil env (the_args (self s) Re) w = (w', Ok d)) Rs ds.
Proof.
  revert s s' ds; induction Rs as [|Re Rs IH]; intros s s' ds H.
  - inversion H; subst. rewrite app_nil_r. split; constructor.
  - rewrite run_datas_cons in H.
    destruct (run_xfoil env _ (world s)) as [w' [d|e]] eqn:E; [|discriminate].
    destruct (run_all Rs n_iter working_directory _) as [s2 [ds2|e]] eqn:E2;
      inversion H; subst; clear H.
    apply IH in E2; simpl in E2. destruct E2 as [Ht Hf].
    split.
    + rewrite Ht, <- app_assoc. reflexivity.
    + constructor; [exists (world s), w'; exact E | exact Hf].
Qed.

(** A comprehension that raises stopped at the first Reynolds number whose
    call raised. *)
Lemma run_datas_raise (Rs : list Q) (s s' : state World) (e : exn) :
  run_all Rs n_iter working_directory s = (s', Raise e) ->
  exists Rs1 Re Rs2 s1 ds,
    Rs = Rs1 ++ Re :: Rs2 /\
    run_all Rs1 n_iter working_directory s = (s1, Ok ds) /\
    run_xfoil env (the_args (self s) Re) (world s1) = (world s', Raise e) /\
    trace s' = trace s ++ map (the_call (self s)) (Rs1 ++ [Re]) /\
    self s' = self s.
Proof.
  revert s s'; induction Rs as [|Re Rs IH]; intros s s' H; [discriminate|].
  rewrite run_datas_cons in H.
  destruct (run_xfoil env _ (world s)) as [w' [d|e']] eqn:E.
  - destruct (run_all Rs n_iter working_directory _) as [s2 [ds2|e']] eqn:E2;
      inversion H; subst; clear H.
    destruct (IH _ _ E2) as (Rs1 & Re' & Rs2 & s1 & ds & -> & H1 & H2 & H3 & H4).
    simpl in *.
    exists (Re :: Rs1), Re', Rs2, s1, (d :: ds).
    repeat split; trivial.
    + rewrite run_datas_cons, E, H1. reflexivity.
    + rewrite H3, <- app_assoc. reflexivity.
  - inversion H; subst; clear H.
    exists [], Re, Rs, s, []. repeat split; simpl; trivial.
Qed.

(** The comprehension over a concatenation. *)
Lemma run_datas_app (Rs1 Rs2 : list Q) (s : state World) :
  run_all (Rs1 ++ Rs2) n_iter working_directory s =
  match run_all Rs1 n_iter working_directory s with
  | (s1, Ok d1) =>
      match run_all Rs2 n_iter working_directory s1 with
      | (s2, Ok d2) => (s2, Ok (d1 ++ d2))
      | (s2, Raise e) => (s2, Raise e)
      end
  | (s1, Raise e) => (s1, Raise e)
  end.
Proof.
  revert s; induction Rs1 as [|Re Rs1 IH]; intros s.
  - simpl. unfold ret.
    destruct (run_all Rs2 n_iter working_directory s) as [s2 [d2|e]];
      reflexivity.
  - rewrite <- app_comm_cons, !run_datas_cons.
    destruct (run_xfoil env _ (world s)) as [w' [d|e]]; [|reflexivity].
    rewrite IH.
    destruct (run_all Rs1 n_iter working_directory _) as [s1 [d1|e]];
      [|reflexivity].
    destruct (run_all Rs2 n_iter working_directory s1) as [s2 [d2|e]];
      reflexivity.
Qed.

(** The method after its comprehension: two assignments and the return. *)
Lemma generate_polars_xfoil_eq (Rs : list Q) (mp : Z) (s : state World) :
  sweep Rs mp s =
  match run_all Rs n_iter working_directory s with
  | (s1, Ok ds) =>
      (mk_state (world s1) (trace s1) (set_Res Rs (set_polars ds (self s1))),
       Ok ds)
  | (s1, Raise e) => (s1, Raise e)
  end.
Proof.
  unfold Airfoil.generate_polars_xfoil, bind.
  destruct (run_all Rs n_iter working_directory s) as [s1 [ds|e]];
    reflexivity.
Qed.

(** The runs of the solver, as the comprehension makes them. *)

Lemma solver_returns_length (w w' : World) (Rs : list Q)
    (args : Q -> xfoil_args) (ds : list run_data) :
  solver_returns env args w Rs w' ds -> List.length ds = List.length Rs.
Proof.
  induction 1; simpl; congruence.
Qed.

Lemma solver_raises_prefix (w w' : World) (Rs tried : list Q)
    (args : Q -> xfoil_args) (e : exn) :
  solver_raises env args w Rs w' e tried ->
  tried <> [] /\ exists Rs2, Rs = tried ++ Rs2.
Proof.
  induction 1 as [w w1 Re Rs e H | w w1 w2 Re Rs d e tried H _ [_ [Rs2 ->]]].
  - split; [discriminate | exists Rs; reflexivity].
  - split; [discriminate | exists Rs2; reflexivity].
Qed.

(** The solver is a function of its arguments and of the world: the runs of
    a sweep either all return or raise at one Reynolds number, never both,
    and what they return is determined. *)
Lemma solver_returns_or_raises (w : World) (Rs : list Q)
    (args : Q -> xfoil_args) :
  (exists w' ds, solver_returns env args w Rs w' ds) \/
  (exists w' e tried, solver_raises env args w Rs w' e tried).
Proof.
  revert w; induction Rs as [|Re Rs IH]; intros w.
  - left. exists w, []. constructor.
  - destruct (run_xfoil env (args Re) w) as [w1 [d|e]] eqn:E.
    + destruct (IH w1) as [(w' & ds & H) | (w' & e & tried & H)].
      * left. exists w', (d :: ds). econstructor; eassumption.
      * right. exists w', e, (Re :: tried). econstructor; eassumption.
    + right. exists w1, e, [Re]. constructor. exact E.
Qed.

Lemma run_datas_returns (Rs : list Q) (w w' : World) (tr : list call)
    (o : obj) (ds : list run_data) :
  solver_returns env (fun Re => the_args o Re) w Rs w' ds ->
  run_all Rs n_iter working_directory (mk_state w tr o) =
  (mk_state w' (tr ++ map (the_call o) Rs) o, Ok ds).
Proof.
  intros H; revert tr.
  induction H as [w | w w1 w2 Re Rs d ds H _ IH]; intros tr.
  - simpl. rewrite app_nil_r. reflexivity.
  - rewrite run_datas_cons. cbn [self world trace]. rewrite H, IH.
    cbn [map]. rewrite <- app_assoc. reflexivity.
Qed.

Lemma run_datas_raises (Rs : list Q) (w w' : World) (tr : list call)
    (o : obj) (e : exn) (tried : list Q) :
  solver_raises env (fun Re => the_args o Re) w Rs w' e tried ->
  run_all Rs n_iter working_directory (mk_state w tr o) =
  (mk_state w' (tr ++ map (the_call o) tried) o, Raise e).
Proof.
  intros H; revert tr.
  induction H as [w w1 Re Rs e H | w w1 w2 Re Rs d e tried H _ IH];
    intros tr.
  - rewrite run_datas_cons. cbn [self world trace]. rewrite H. reflexivity.
  - rewrite run_datas_cons. cbn [self world trace]. rewrite H, IH.
    cbn [map]. rewrite <- app_assoc. reflexivity.
Qed.

(** What the comprehension did, read back from its result. *)
Lemma run_datas_runs (Rs : list Q) (s : state World) :
  let (s', r) := run_all Rs n_iter working_directory s in
  self s' = self s /\
  match r with
  | Ok ds =>
      solver_returns env (fun Re => the_args (self s) Re)
        (world s) Rs (world s') ds /\
      trace s' = trace s ++ map (the_call (self s)) Rs
  | Raise e =>
      exists tried,
        solver_raises env (fun Re => the_args (self s) Re)
          (world s) Rs (world s') e tried /\
        trace s' = trace s ++ map (the_call (self s)) tried
  end.
Proof.
  destruct s as [w tr o]. cbn [self world trace].
  destruct (solver_returns_or_raises w Rs (fun Re => the_args o Re))
    as [(w' & ds & H) | (w' & e & tried & H)].
  - rewrite (run_datas_returns _ _ _ tr _ _ H). cbn [self world trace].
    repeat split. exact H.
  - rewrite (run_datas_raises _ _ _ tr _ _ _ H). cbn [self world trace].
    split; [reflexivity|]. exists tried. split; [exact H | reflexivity].
Qed.

(** ** The polar sweep *)

(** C1 (as amended): when the solver raises at a Reynolds number of the list,
    the invocations before it having returned, the sweep raises that very
    exception.  The solver was invoked for the Reynolds numbers up to the
    failing one, in order, and for none after it, and [self] is as it was:
    nothing is attached. *)
Theorem sweep_stops_at_first_failure
    (Rs1 : list Q) (Re : Q) (Rs2 : list Q) (mp : Z)
    (s s1 : state World) (ds : list run_data) (w2 : World) (e : exn) :
  run_all Rs1 n_iter working_directory s = (s1, Ok ds) ->
  run_xfoil env (the_args (self s) Re) (world s1) = (w2, Raise e) ->
  sweep (Rs1 ++ Re :: Rs2) mp s =
  (mk_state w2 (trace s ++ map (the_call (self s)) (Rs1 ++ [Re])) (self s),
   Raise e).
Proof.
  intros H1 H2.
  rewrite generate_polars_xfoil_eq, run_datas_app, H1, run_datas_cons.
  pose proof (run_datas_self Rs1 s) as Hs. rewrite H1 in Hs. simpl in Hs.
  destruct (run_datas_ok _ _ _ _ H1) as [Ht _].
  rewrite Hs, H2, Ht, map_app, <- app_assoc. reflexivity.
Qed.

(** C4 (as amended): the sweep returns a list, not a mapping: when every
    run of the solver returns, the list holds one record per requested
    Reynolds number in the order of the input, the i-th being what the solver
    returned for the i-th Reynolds number in the world its runs before had
    left; the list is attached as [self.polars] and the input list as
    [self.Res].  When a run raises there is no dataset: the sweep raises what
    the run raised and [self] is as it was. *)
Theorem sweep_dataset_is_positional (Rs : list Q) (mp : Z) (s : state World) :
  (let (s', r) := sweep Rs mp s in
   match r with
   | Ok ds =>
       solver_returns env (fun Re => the_args (self s) Re)
         (world s) Rs (world s') ds /\
       List.length ds = List.length Rs /\
       polars (self s') = Some ds /\
       Res (self s') = Some Rs
   | Raise e =>
       (exists tried,
          solver_raises env (fun Re => the_args (self s) Re)
            (world s) Rs (world s') e tried) /\
       self s' = self s
   end) /\
  (forall w' ds,
     solver_returns env (fun Re => the_args (self s) Re) (world s) Rs w' ds ->
     snd (sweep Rs mp s) = Ok ds) /\
  (forall w' e tried,
     solver_raises env (fun Re => the_args (self s) Re)
       (world s) Rs w' e tried ->
     snd (sweep Rs mp s) = Raise e).
Proof.
  rewrite generate_polars_xfoil_eq. split; [|split].
  - pose proof (run_datas_runs Rs s) as H.
    destruct (run_all Rs n_iter working_directory s) as [s1 [ds|e]].
    + destruct H as [Hs [Hr _]]. cbn [self world].
      split; [exact Hr|]. split; [exact (solver_returns_length _ _ _ _ _ Hr)|].
      split; reflexivity.
    + destruct H as [Hs [tried [Hr _]]].
      split; [exists tried; exact Hr | exact Hs].
  - intros w' ds H. destruct s as [w tr o]. cbn [self world] in H.
    rewrite (run_datas_returns _ _ _ tr _ _ H). reflexivity.
  - intros w' e tried H. destruct s as [w tr o]. cbn [self world] in H.
    rewrite (run_datas_raises _ _ _ tr _ _ _ H). reflexivity.
Qed.

(** C5: the argument [min_points_to_converged] has no effect.  With any two
    values of it the sweep returns the same result and leaves the same state:
    the same outside world, the same log of solver invocations and the same
    attributes of [self]. *)
Theorem sweep_ignores_min_points_to_converged
    (Rs : list Q) (mp1 mp2 : Z) (s : state World) :
  sweep Rs mp1 s = sweep Rs mp2 s.
Proof.
  rewrite !generate_polars_xfoil_eq. reflexivity.
Qed.

(** C6 (as amended): a sweep over the empty list of Reynolds numbers does not
    raise.  It invokes no solver, attaches the empty dataset and the empty
    list, and returns the empty dataset. *)
Theorem sweep_of_no_Reynolds_number (mp : Z) (s : state World) :
  sweep [] mp s =
  (mk_state (world s) (trace s) (set_Res [] (set_polars [] (self s))), Ok []).
Proof.
  rewrite generate_polars_xfoil_eq. reflexivity.
Qed.

(** C9: a sweep leaves [name], [coordinates], [x] and [y] as they were.
    When every run of the solver returns, the sweep returns, and the airfoil
    it leaves is the airfoil it found with [polars] replaced by the list it
    returns and [Res] by the list it was given: whatever dataset was attached
    before is gone.  When a run raises, the sweep raises and changed no
    attribute.  One of the two always happens. *)
Theorem sweep_frame (Rs : list Q) (mp : Z) (s : state World) :
  (let (s', r) := sweep Rs mp s in
   name (self s') = name (self s) /\
   coordinates (self s') = coordinates (self s) /\
   x (self s') = x (self s) /\
   y (self s') = y (self s) /\
   match r with
   | Ok ds =>
       polars (self s') = Some ds /\
       Res (self s') = Some Rs /\
       List.length ds = List.length Rs
   | Raise _ => self s' = self s
   end) /\
  (forall w' ds,
     solver_returns env (fun Re => the_args (self s) Re) (world s) Rs w' ds ->
     sweep Rs mp s =
     (mk_state w' (trace s ++ map (the_call (self s)) Rs)
        (mk_obj (name (self s)) (coordinates (self s)) (x (self s))
           (y (self s)) (Some ds) (Some Rs)),
      Ok ds)) /\
  (forall w' e tried,
     solver_raises env (fun Re => the_args (self s) Re)
       (world s) Rs w' e tried ->
     sweep Rs mp s =
     (mk_state w' (trace s ++ map (the_call (self s)) tried) (self s),
      Raise e)) /\
  ((exists w' ds,
      solver_returns env (fun Re => the_args (self s) Re)
        (world s) Rs w' ds) \/
   (exists w' e tried,
      solver_raises env (fun Re => the_args (self s) Re)
        (world s) Rs w' e tried)).
Proof.
  split; [|split; [|split]].
  - rewrite generate_polars_xfoil_eq.
    pose proof (run_datas_self Rs s) as Hs.
    destruct (run_all Rs n_iter working_directory s) as [s1 [ds|e]] eqn:E;
      simpl in *; rewrite Hs.
    + repeat split.
      destruct (run_datas_ok _ _ _ _ E) as [_ Hf].
      symmetry. exact (Forall2_length Hf).
    + repeat split.
  - intros w' ds H. rewrite generate_polars_xfoil_eq.
    destruct s as [w tr o]. cbn [self world trace] in *.
    rewrite (run_datas_returns _ _ _ tr _ _ H). reflexivity.
  - intros w' e tried H. rewrite generate_polars_xfoil_eq.
    destruct s as [w tr o]. cbn [self world trace] in *.
    rewrite (run_datas_raises _ _ _ tr _ _ _ H). reflexivity.
  - apply solver_returns_or_raises.
Qed.

End SweepFacts.

(** A sweep at [1e4], [1e5] and [1e6] with the solver that fails at [1e5]. *)
Lemma sweep_stops_at_first_failure_witness :
  Airfoil.generate_polars_xfoil Fake.env 0 10 (1 # 4)
    ([10000] ++ 100000 :: [1000000]) 100 20 None
    (mk_state 0%nat [] Fake.wing) =
  (mk_state 2%nat
     ([] ++ map (sweep_call Fake.wing 0 10 (1 # 4) 100 None)
              ([10000] ++ [100000]))
     Fake.wing,
   Raise Fake.solver_crash).
Proof.
  apply (sweep_stops_at_first_failure Fake.env 0 10 (1 # 4) 100 None
           [10000] 100000 [1000000] 20
           (mk_state 0%nat [] Fake.wing)
           (mk_state 1%nat [sweep_call Fake.wing 0 10 (1 # 4) 100 None 10000]
              Fake.wing)
           [Fake.curve 10000]);
    reflexivity.
Defined.

(** The runs at [1e4] and [1e6] with the solver of the fakes both return. *)
Lemma fake_solver_returns (o : obj) :
  solver_returns Fake.env
    (fun Re => mk_xfoil_args o 0 10 (1 # 4) Re 100 None)
    0%nat [10000; 1000000] 2%nat [Fake.curve 10000; Fake.curve 1000000].
Proof.
  apply (returns_cons _ _ 0%nat 1%nat 2%nat); [reflexivity|].
  apply (returns_cons _ _ 1%nat 2%nat 2%nat); [reflexivity|].
  apply returns_nil.
Qed.

(** A sweep at [1e4] and [1e6] returns the two curves, in that order. *)
Lemma sweep_dataset_is_positional_witness :
  snd (Airfoil.generate_polars_xfoil Fake.env 0 10 (1 # 4) [10000; 1000000]
         100 20 None (mk_state 0%nat [] Fake.wing)) =
  Ok [Fake.curve 10000; Fake.curve 1000000].
Proof.
  apply (proj1 (proj2 (sweep_dataset_is_positional Fake.env 0 10 (1 # 4) 100
                         None [10000; 1000000] 20
                         (mk_state 0%nat [] Fake.wing)))
           2%nat).
  apply fake_solver_returns.
Defined.

(** A sweep at [1e4] and [1e6] on an airfoil that carries the dataset of an
    earlier sweep at [1e5]: the earlier dataset and list are gone. *)
Lemma sweep_frame_witness :
  Airfoil.generate_polars_xfoil Fake.env 0 10 (1 # 4) [10000; 1000000]
    100 20 None
    (mk_state 0%nat []
       (set_Res [100000] (set_polars [Fake.curve 5] Fake.wing))) =
  (mk_state 2%nat
     ([] ++ map (sweep_call
                   (set_Res [100000] (set_polars [Fake.curve 5] Fake.wing))
                   0 10 (1 # 4) 100 None) [10000; 1000000])
     (mk_obj "wing" (PyArray Fake.square) (Some (map fst Fake.square))
        (Some (map snd Fake.square))
        (Some [Fake.curve 10000; Fake.curve 1000000])
        (Some [10000; 1000000])),
   Ok [Fake.curve 10000; Fake.curve 1000000]).
Proof.
  apply (proj1 (proj2 (sweep_frame Fake.env 0 10 (1 # 4) 100 None
                         [10000; 1000000] 20
                         (mk_state 0%nat []
                            (set_Res [100000]
                               (set_polars [Fake.curve 5] Fake.wing)))))
           2%nat).
  apply fake_solver_returns.
Defined.

(** C1, refuted as stated: the invocation for [1e5] raises, and the sweep
    raises with it; the solver ran twice, and never for [1e6]. *)
Lemma sweep_aborts_counterexample :
  let r := Airfoil.generate_polars_xfoil Fake.env 0 10 (1 # 4)
             [10000; 100000; 1000000] 100 20 None
             (mk_state 0%nat [] Fake.wing) in
  snd r = Raise Fake.solver_crash /\
  world (fst r) = 2%nat /\
  trace (fst r) =
    [sweep_call Fake.wing 0 10 (1 # 4) 100 None 10000;
     sweep_call Fake.wing 0 10 (1 # 4) 100 None 100000] /\
  polars (self (fst r)) = None.
Proof.
  repeat split.
Qed.

(** C4, refuted as stated: with the invocation for [1e5] failing there is no
    dataset with a slot for [1e5], nor any dataset: the sweep raises, and
    neither [polars] nor [Res] is assigned. *)
Lemma sweep_no_slot_counterexample :
  let r := Airfoil.generate_polars_xfoil Fake.env 0 10 (1 # 4)
             [10000; 100000; 1000000] 100 20 None
             (mk_state 0%nat [] Fake.wing) in
  (forall ds, snd r <> Ok ds) /\
  polars (self (fst r)) = None /\
  Res (self (fst r)) = None.
Proof.
  repeat split. intros ds H. discriminate H.
Qed.

(** C6, refuted as stated: the sweep over the empty list returns the empty
    dataset, the solver never having run. *)
Lemma sweep_empty_counterexample :
  Airfoil.generate_polars_xfoil Fake.env 0 10 (1 # 4) [] 100 20 None
    (mk_state 0%nat [] Fake.wing) =
  (mk_state 0%nat [] (set_Res [] (set_polars [] Fake.wing)), Ok []).
Proof.
  reflexivity.
Qed.

(** ** Construction *)

Section ConstructionFacts.

Context {World : Type} (env : externals World).

(** [__init__] with a path: one call, to the file reader. *)
Lemma init_with_path (n p : string) (s : state World) :
  Airfoil.__init__ env n (Some p) s =
  match get_file_coordinates env p (world s) with
  | (w', Ok c) =>
      (mk_state w' (trace s ++ [CallFile p])
         (mk_obj n (PyArray c) (Some (map fst c)) (Some (map snd c))
            (polars (self s)) (Res (self s))),
       Ok tt)
  | (w', Raise e) =>
      (mk_state w' (trace s ++ [CallFile p])
         (mk_obj n (PyPath p) (x (self s)) (y (self s))
            (polars (self s)) (Res (self s))),
       Raise e)
  end.
Proof.
  unfold Airfoil.__init__, bind, modify_self, extern, get_coordinates; simpl.
  destruct (get_file_coordinates env p (world s)) as [w' [c|e]]; reflexivity.
Qed.

(** [__init__] without a path: the generator, then the database if the
    generator declined, then the final test. *)
Lemma init_without_path (n : string) (s : state World) :
  Airfoil.__init__ env n None s =
  let o := mk_obj n PyNone (x (self s)) (y (self s))
             (polars (self s)) (Res (self s)) in
  let built c := mk_obj n (PyArray c) (Some (map fst c)) (Some (map snd c))
                   (polars (self s)) (Res (self s)) in
  match get_NACA_coordinates env n (world s) with
  | (w1, Ok c) => (mk_state w1 (trace s ++ [CallNACA n]) (built c), Ok tt)
  | (w1, Raise e1) =>
      if isinstance e1 "ValueError" || isinstance e1 "NotImplementedError"
      then
        match get_UIUC_coordinates env n w1 with
        | (w2, Ok c) =>
            (mk_state w2 ((trace s ++ [CallNACA n]) ++ [CallUIUC n]) (built c),
             Ok tt)
        | (w2, Raise e2) =>
            if isinstance e2 "FileNotFoundError"
            then (mk_state w2 ((trace s ++ [CallNACA n]) ++ [CallUIUC n]) o,
                  Raise (Exception (Airfoil.no_coordinates_msg n)))
            else (mk_state w2 ((trace s ++ [CallNACA n]) ++ [CallUIUC n]) o,
                  Raise e2)
        end
      else (mk_state w1 (trace s ++ [CallNACA n]) o, Raise e1)
  end.
Proof.
  unfold Airfoil.__init__, bind, try_except, modify_self, extern,
    get_coordinates, get_name, ret, raise; simpl.
  destruct (get_NACA_coordinates env n (world s)) as [w1 [c|e1]]; simpl;
    [reflexivity|].
  rewrite !orb_false_r.
  destruct (isinstance e1 "ValueError" || isinstance e1 "NotImplementedError");
    simpl; [|reflexivity].
  destruct (get_UIUC_coordinates env n w1) as [w2 [c|e2]]; simpl;
    [reflexivity|].
  rewrite !orb_false_r.
  destruct (isinstance e2 "FileNotFoundError"); reflexivity.
Qed.


(** What the code does when the generator declines a name (it raises a
    [ValueError] or a [NotImplementedError]), the database declines it (it
    raises a [FileNotFoundError]) and no path is given: line 50 raises an
    instance of [Exception] whose message holds the name; the caller gets no
    instance, and in [__init__] the attribute [coordinates] is [None] and
    [x] and [y] were never assigned. *)
Theorem unresolved_name_raises
    (n : string) (w w1 w2 : World) (e1 e2 : exn) :
  get_NACA_coordinates env n w = (w1, Raise e1) ->
  isinstance e1 "ValueError" || isinstance e1 "NotImplementedError" = true ->
  get_UIUC_coordinates env n w1 = (w2, Raise e2) ->
  isinstance e2 "FileNotFoundError" = true ->
  Airfoil.new env n None w =
    (w2, [CallNACA n; CallUIUC n],
     Raise (Exception
              ("Airfoil " ++ n ++
               " had no coordinates assigned, and could not parse the `coordinates` input!")))
  /\
  let s' := fst (Airfoil.__init__ env n None (mk_state w [] fresh_obj)) in
  coordinates (self s') = PyNone /\ x (self s') = None /\ y (self s') = None.
Proof.
  intros H1 Hc1 H2 Hc2.
  unfold Airfoil.new. rewrite init_without_path. simpl.
  rewrite H1, Hc1, H2, Hc2. simpl. repeat split.
Qed.

(** The instance a caller gets holds an array, its two columns and the
    name it was given. *)
Lemma new_instance_has_array
    (n : string) (path : option string) (w w' : World) (calls : list call)
    (o : obj) :
  Airfoil.new env n path w = (w', calls, Ok o) ->
  exists C,
    coordinates o = PyArray C /\
    x o = Some (map fst C) /\ y o = Some (map snd C) /\ name o = n.
Proof.
  unfold Airfoil.new. destruct path as [p|].
  - rewrite init_with_path. cbn [world trace self fresh_obj].
    destruct (get_file_coordinates env p w) as [w1 [c|e]]; intros H;
      inversion H; subst.
    exists c. repeat split.
  - rewrite init_without_path. cbn [world trace self fresh_obj].
    destruct (get_NACA_coordinates env n w) as [w1 [c|e1]].
    + intros H; inversion H; subst. exists c. repeat split.
    + destruct (isinstance e1 "ValueError"
                || isinstance e1 "NotImplementedError");
        [|intros H; inversion H].
      destruct (get_UIUC_coordinates env n w1) as [w2 [c|e2]].
      * intros H; inversion H; subst. exists c. repeat split.
      * destruct (isinstance e2 "FileNotFoundError");
          intros H; inversion H.
Qed.

End ConstructionFacts.

(** The fakes recognise ["naca0012"] as a NACA name and hold ["wing.dat"]:
    the path is the only provider read when it is given, and the generator
    is the only one when it answers. *)
Example construction_runs :
  Airfoil.new Fake.env "naca0012" (Some "wing.dat") 0%nat =
    (0%nat, [CallFile "wing.dat"],
     Ok (mk_obj "naca0012" (PyArray Fake.square) (Some [1; 0; 0; 1])
           (Some [0; 1; 0; 0]) None None)) /\
  Airfoil.new Fake.env "naca0012" (Some "lost.dat") 0%nat =
    (0%nat, [CallFile "lost.dat"],
     Raise (FileNotFoundError "no such file")) /\
  Airfoil.new Fake.env "naca0012" None 0%nat =
    (0%nat, [CallNACA "naca0012"],
     Ok (mk_obj "naca0012" (PyArray Fake.square) (Some [1; 0; 0; 1])
           (Some [0; 1; 0; 0]) None None)).
Proof.
  repeat split.
Qed.

(** Neither fake knows the name ["clarky"]. *)
Lemma unresolved_name_raises_witness :
  Airfoil.new Fake.env "clarky" None 0%nat =
    (0%nat, [CallNACA "clarky"; CallUIUC "clarky"],
     Raise (Exception
              "Airfoil clarky had no coordinates assigned, and could not parse the `coordinates` input!"))
  /\
  let s' := fst (Airfoil.__init__ Fake.env "clarky" None
                   (mk_state 0%nat [] fresh_obj)) in
  coordinates (self s') = PyNone /\ x (self s') = None /\ y (self s') = None.
Proof.
  apply (unresolved_name_raises Fake.env "clarky" 0%nat 0%nat 0%nat
           (ValueError "not a NACA airfoil")
           (FileNotFoundError "not in the UIUC database"));
    reflexivity.
Defined.

(** C3 (a defect of the code): for the name ["clarky"], which no provider
    resolves, the constructor raises an instance of the class [Exception]
    itself.  That is neither the [GeometryNotFoundError] of the claim nor
    the [UserWarning] the docstring of [__init__] announces for this very
    case, and a handler for either of them does not catch it. *)
Theorem unresolved_name_code_defect :
  exists e,
    snd (Airfoil.new Fake.env "clarky" None 0%nat) = Raise e /\
    exn_class e = "Exception" /\
    isinstance e "GeometryNotFoundError" = false /\
    isinstance e "UserWarning" = false.
Proof.
  eexists. repeat split.
Qed.

(** ** Strings *)

Lemma append_nil_r (s : string) : (s ++ EmptyString)%string = s.
Proof.
  induction s as [|c s IH]; simpl; [reflexivity | rewrite IH; reflexivity].
Qed.

Lemma append_assoc (a b c : string) :
  ((a ++ b) ++ c = a ++ (b ++ c))%string.
Proof.
  induction a as [|x a IH]; simpl; [reflexivity | rewrite IH; reflexivity].
Qed.

Lemma has_char_app (c : ascii) (a b : string) :
  has_char c (a ++ b)%string = has_char c a || has_char c b.
Proof.
  induction a as [|x a IH]; simpl; [reflexivity|].
  rewrite IH, orb_assoc. reflexivity.
Qed.

Lemma split_on_not_nil (c : ascii) (s : string) : split_on c s <> [].
Proof.
  destruct s as [|a r]; simpl; [discriminate|].
  destruct (Ascii.eqb a c); [discriminate|].
  destruct (split_on c r); discriminate.
Qed.

(** A text with no separator is a single piece. *)
Lemma split_on_none (c : ascii) (s : string) :
  has_char c s = false -> split_on c s = [s].
Proof.
  induction s as [|a r IH]; simpl; intros H; [reflexivity|].
  apply orb_false_iff in H. destruct H as [Ha Hr].
  rewrite Ha, (IH Hr). reflexivity.
Qed.

(** The first piece ends at the first separator. *)
Lemma split_on_app (c : ascii) (a r : string) :
  has_char c a = false ->
  split_on c (a ++ String c r)%string = a :: split_on c r.
Proof.
  induction a as [|x a IH]; simpl; intros H.
  - rewrite Ascii.eqb_refl. reflexivity.
  - apply orb_false_iff in H. destruct H as [Hx Ha].
    rewrite Hx, (IH Ha). reflexivity.
Qed.

(** Splitting undoes joining, for pieces that hold no separator. *)
Lemma split_on_concat (c : ascii) (l : string) (ls : list string) :
  Forall (fun p => has_char c p = false) (l :: ls) ->
  split_on c (String.concat (String c EmptyString) (l :: ls)) = l :: ls.
Proof.
  revert l; induction ls as [|l' ls IH]; intros l H.
  - simpl. apply split_on_none. inversion H; assumption.
  - inversion H as [|? ? Hl Hls]; subst.
    change (String.concat (String c EmptyString) (l :: l' :: ls))
      with (l ++ String c (String.concat (String c EmptyString) (l' :: ls)))%string.
    rewrite (split_on_app c l _ Hl), (IH l' Hls). reflexivity.
Qed.

Lemma ends_with_LF_app (a b : string) :
  b <> EmptyString -> ends_with_LF (a ++ b)%string = ends_with_LF b.
Proof.
  intros Hb. induction a as [|c a IH]; [reflexivity|].
  simpl. destruct (a ++ b)%string eqn:E; [|exact IH].
  destruct a; simpl in E; [contradiction | discriminate].
Qed.

(** ** Digits *)

Lemma digit_char_ok (d : Z) :
  is_digit_value d ->
  is_digit (digit_char d) = true /\ digit_value (digit_char d) = d.
Proof.
  unfold is_digit_value. intros H.
  assert (d = 0 \/ d = 1 \/ d = 2 \/ d = 3 \/ d = 4 \/ d = 5 \/ d = 6 \/
          d = 7 \/ d = 8 \/ d = 9)%Z as Hd by lia.
  repeat (destruct Hd as [->|Hd]; [split; reflexivity|]).
  subst; split; reflexivity.
Qed.

Arguments digit_char : simpl never.
Arguments is_digit : simpl never.
Arguments digit_value : simpl never.

(** A digit is neither a minus sign, nor a point, nor a space, nor a line
    feed. *)
Lemma is_digit_not (c x : ascii) :
  is_digit c = true -> is_digit x = false -> Ascii.eqb c x = false.
Proof.
  intros Hc Hx. apply Ascii.eqb_neq. intros ->. congruence.
Qed.

Lemma of_digits_acc (ds : list Z) (acc : Z) :
  fold_left (fun a d => (a * 10 + d)%Z) ds acc =
  (acc * 10 ^ Z.of_nat (List.length ds) + of_digits ds)%Z.
Proof.
  unfold of_digits. revert acc.
  induction ds as [|d ds IH]; intros acc.
  - simpl. lia.
  - cbn [fold_left List.length]. rewrite IH, (IH (0 * 10 + d)%Z).
    rewrite Nat2Z.inj_succ, Z.pow_succ_r by lia. lia.
Qed.

Lemma of_digits_app (l1 l2 : list Z) :
  of_digits (l1 ++ l2) =
  (of_digits l1 * 10 ^ Z.of_nat (List.length l2) + of_digits l2)%Z.
Proof.
  unfold of_digits at 1. rewrite fold_left_app.
  apply of_digits_acc.
Qed.

Lemma of_digits_snoc (l : list Z) (d : Z) :
  of_digits (l ++ [d]) = (of_digits l * 10 + d)%Z.
Proof.
  rewrite of_digits_app. unfold of_digits at 2. simpl. lia.
Qed.

Lemma fixed_digits_length (k : nat) (n : Z) :
  List.length (fixed_digits k n) = k.
Proof.
  revert n; induction k as [|k IH]; intros n; [reflexivity|].
  simpl. rewrite length_app, IH. simpl. lia.
Qed.

Lemma fixed_digits_are_digits (k : nat) (n : Z) :
  Forall is_digit_value (fixed_digits k n).
Proof.
  revert n; induction k as [|k IH]; intros n; [constructor|].
  simpl. apply Forall_app. split; [apply IH|].
  constructor; [|constructor].
  unfold is_digit_value. apply Z.mod_pos_bound. lia.
Qed.

(** The [k] digits denote the number modulo [10^k]. *)
Lemma of_fixed_digits (k : nat) (n : Z) :
  of_digits (fixed_digits k n) = (n mod 10 ^ Z.of_nat k)%Z.
Proof.
  revert n; induction k as [|k IH]; intros n.
  - simpl. rewrite Z.mod_1_r. reflexivity.
  - cbn [fixed_digits]. rewrite of_digits_snoc, IH.
    rewrite Nat2Z.inj_succ, Z.pow_succ_r by lia.
    rewrite (Z.rem_mul_r n 10 (10 ^ Z.of_nat k)) by lia. lia.
Qed.

(** The digits denote the number, whatever the fuel. *)
Lemma of_digits_fuel (fuel : nat) (n : Z) :
  of_digits (digits_fuel fuel n) = n.
Proof.
  revert n; induction fuel as [|f IH]; intros n; [reflexivity|].
  simpl. destruct (n <? 10)%Z; [reflexivity|].
  rewrite of_digits_snoc, IH.
  pose proof (Z.div_mod n 10). lia.
Qed.

Lemma digits_fuel_not_nil (fuel : nat) (n : Z) : digits_fuel fuel n <> [].
Proof.
  destruct fuel; simpl; [discriminate|].
  destruct (n <? 10)%Z; [discriminate|].
  intros H. apply app_eq_nil in H. destruct H; discriminate.
Qed.

(** With fuel for the binary logarithm, every element is a digit. *)
Lemma digits_fuel_are_digits (fuel : nat) (n : Z) :
  (0 <= n)%Z -> (Z.log2 n <= Z.of_nat fuel)%Z ->
  Forall is_digit_value (digits_fuel fuel n).
Proof.
  revert n; induction fuel as [|f IH]; intros n Hn Hl.
  - simpl. constructor; [|constructor].
    assert (Z.log2 n = 0)%Z as H0 by (pose proof (Z.log2_nonneg n); lia).
    apply Z.log2_null in H0. unfold is_digit_value. lia.
  - simpl. destruct (n <? 10)%Z eqn:E.
    + apply Z.ltb_lt in E. constructor; [|constructor].
      unfold is_digit_value. lia.
    + apply Z.ltb_ge in E. apply Forall_app. split.
      * apply IH; [apply Z.div_pos; lia|].
        assert (0 < n / 2)%Z as Hh by (apply Z.div_str_pos; lia).
        assert (n / 10 <= n / 2)%Z as Hle.
        { apply Z.div_le_lower_bound; [lia|].
          pose proof (Z.mul_div_le n 10). pose proof (Z.mul_div_le n 2).
          pose proof (Z.div_mod n 10). pose proof (Z.mod_pos_bound n 10). lia. }
        pose proof (Z.log2_le_mono _ _ Hle) as H1.
        pose proof (Z.log2_double _ Hh) as H2.
        assert (2 * (n / 2) <= n)%Z as H3 by (apply Z.mul_div_le; lia).
        pose proof (Z.log2_le_mono _ _ H3) as H4.
        lia.
      * constructor; [|constructor].
        unfold is_digit_value. apply Z.mod_pos_bound. lia.
Qed.

Lemma digits_are_digits (n : Z) :
  (0 <= n)%Z -> Forall is_digit_value (digits n).
Proof.
  intros Hn. apply digits_fuel_are_digits; [exact Hn|].
  rewrite Z2Nat.id by apply Z.log2_nonneg. lia.
Qed.

(** ** Numerals *)

Lemma string_of_digits_app (l1 l2 : list Z) :
  string_of_digits (l1 ++ l2) =
  (string_of_digits l1 ++ string_of_digits l2)%string.
Proof.
  induction l1 as [|d l1 IH]; simpl; [reflexivity | rewrite IH; reflexivity].
Qed.

(** Reading back the digits that were written, up to what follows them. *)
Lemma span_digits_written (ds : list Z) (rest : string) :
  Forall is_digit_value ds -> starts_with_digit rest = false ->
  span_digits (string_of_digits ds ++ rest)%string = (ds, rest).
Proof.
  intros Hd Hr. induction Hd as [|d ds Hd _ IH].
  - cbn [string_of_digits append].
    destruct rest as [|c r]; [reflexivity|].
    cbn [starts_with_digit] in Hr. cbn [span_digits]. rewrite Hr. reflexivity.
  - cbn [string_of_digits append span_digits].
    destruct (digit_char_ok d Hd) as [H1 H2].
    rewrite H1, IH, H2. reflexivity.
Qed.

Lemma has_char_digits (c : ascii) (ds : list Z) :
  Forall is_digit_value ds -> is_digit c = false ->
  has_char c (string_of_digits ds) = false.
Proof.
  intros Hd Hc. induction Hd as [|d ds Hd _ IH]; [reflexivity|].
  cbn [string_of_digits has_char].
  destruct (digit_char_ok d Hd) as [H1 _].
  rewrite (is_digit_not _ _ H1 Hc), IH. reflexivity.
Qed.

(** The rounded value has the sign of the value. *)
Lemma round_half_even_sign (q : Q) :
  ((Qnum q < 0 -> round_half_even q <= 0) /\
   (0 <= Qnum q -> 0 <= round_half_even q))%Z.
Proof.
  unfold round_half_even.
  pose proof (Z.div_mod (Qnum q) (Zpos (Qden q))) as Hdm.
  pose proof (Z.mod_pos_bound (Qnum q) (Zpos (Qden q))) as Hb.
  assert (0 < Zpos (Qden q))%Z as Hpos by lia.
  specialize (Hb Hpos).
  set (d := Zpos (Qden q)) in *. set (n := Qnum q) in *.
  set (f := (n / d)%Z) in *. set (r := (n mod d)%Z) in *.
  assert (n < 0 -> f <= -1)%Z as Hneg by (intros; nia).
  assert (0 <= n -> 0 <= f)%Z as Hnn by (intros; nia).
  destruct (2 * r <? d)%Z; [lia|].
  destruct (d <? 2 * r)%Z; [lia|].
  destruct (Z.even f); lia.
Qed.

(** The rounded value is within a half of the value. *)
Lemma round_half_even_near (q : Q) :
  (2 * Z.abs (round_half_even q * Zpos (Qden q) - Qnum q) <= Zpos (Qden q))%Z.
Proof.
  unfold round_half_even.
  pose proof (Z.div_mod (Qnum q) (Zpos (Qden q))) as Hdm.
  pose proof (Z.mod_pos_bound (Qnum q) (Zpos (Qden q))) as Hb.
  assert (0 < Zpos (Qden q))%Z as Hpos by lia.
  specialize (Hb Hpos).
  set (d := Zpos (Qden q)) in *. set (n := Qnum q) in *.
  set (f := (n / d)%Z) in *. set (r := (n mod d)%Z) in *.
  assert (n = d * f + r)%Z as Hn by lia.
  destruct (2 * r <? d)%Z eqn:E1.
  - apply Z.ltb_lt in E1. nia.
  - apply Z.ltb_ge in E1. destruct (d <? 2 * r)%Z eqn:E2.
    + apply Z.ltb_lt in E2. nia.
    + apply Z.ltb_ge in E2. destruct (Z.even f); nia.
Qed.

Lemma micro_sign (q : Q) :
  ((Qnum q < 0 -> micro q <= 0) /\ (0 <= Qnum q -> 0 <= micro q))%Z.
Proof.
  unfold micro.
  destruct (round_half_even_sign (q * (1000000 # 1))) as [H1 H2].
  simpl in H1, H2. split; intros H; [apply H1 | apply H2]; lia.
Qed.

(** The numeral of [%f] in its parts. *)
Lemma pyformat_f_parts (q : Q) :
  exists ip fp,
    pyformat_f q =
      ((if (Qnum q <? 0)%Z then "-" else EmptyString)
       ++ string_of_digits ip ++ String "." (string_of_digits fp))%string /\
    Forall is_digit_value ip /\ ip <> [] /\
    Forall is_digit_value fp /\ List.length fp = 6%nat /\
    of_digits (ip ++ fp) = Z.abs (micro q).
Proof.
  exists (digits (Z.abs (micro q) / 1000000)),
         (fixed_digits 6 (Z.abs (micro q) mod 1000000)).
  assert (0 <= Z.abs (micro q) / 1000000)%Z as Hi
    by (apply Z.div_pos; lia).
  repeat split.
  - apply digits_are_digits; exact Hi.
  - apply digits_fuel_not_nil.
  - apply fixed_digits_are_digits.
  - rewrite of_digits_app, fixed_digits_length, of_fixed_digits.
    unfold digits. rewrite of_digits_fuel.
    change (10 ^ Z.of_nat 6)%Z with 1000000%Z.
    rewrite Z.mod_mod by lia.
    pose proof (Z.div_mod (Z.abs (micro q)) 1000000). lia.
Qed.

Lemma strip_minus_digits (ds : list Z) (rest : string) :
  Forall is_digit_value ds -> ds <> [] ->
  strip_minus (string_of_digits ds ++ rest)%string =
  (false, (string_of_digits ds ++ rest)%string).
Proof.
  intros Hd Hne. destruct Hd as [|d ds Hd _]; [contradiction|].
  cbn [string_of_digits append strip_minus].
  destruct (digit_char_ok d Hd) as [H1 _].
  rewrite (is_digit_not _ "-"%char H1 eq_refl). reflexivity.
Qed.

(** The numeral of [%f] denotes the value rounded to six decimals. *)
Lemma decimal_value_pyformat_f (q : Q) :
  decimal_value (pyformat_f q) = Some (round6 q).
Proof.
  destruct (pyformat_f_parts q) as (ip & fp & -> & Hip & Hne & Hfp & Hlen & Hv).
  destruct (micro_sign q) as [Hneg Hpos].
  unfold decimal_value, round6.
  assert (span_digits (string_of_digits ip ++ String "." (string_of_digits fp))
          = (ip, String "." (string_of_digits fp))) as Hspan
    by (apply span_digits_written; [exact Hip | reflexivity]).
  assert (span_digits (string_of_digits fp) = (fp, EmptyString)) as Hspan2.
  { rewrite <- (append_nil_r (string_of_digits fp)).
    apply span_digits_written; [exact Hfp | reflexivity]. }
  destruct (Qnum q <? 0)%Z eqn:E.
  - apply Z.ltb_lt in E.
    change ("-" ++ string_of_digits ip
            ++ String "." (string_of_digits fp))%string
      with (String "-"
              (string_of_digits ip ++ String "." (string_of_digits fp))).
    cbn [strip_minus]. rewrite Ascii.eqb_refl, Hspan.
    destruct ip as [|d ip]; [contradiction|].
    rewrite Ascii.eqb_refl, Hspan2, Hlen, Hv.
    change (Pos.pow 10 (Pos.of_nat 6)) with 1000000%positive.
    f_equal. f_equal. specialize (Hneg E). lia.
  - apply Z.ltb_ge in E.
    change (EmptyString ++ string_of_digits ip
            ++ String "." (string_of_digits fp))%string
      with (string_of_digits ip ++ String "." (string_of_digits fp))%string.
    rewrite (strip_minus_digits ip _ Hip Hne), Hspan.
    destruct ip as [|d ip]; [contradiction|].
    rewrite Ascii.eqb_refl, Hspan2, Hlen, Hv.
    change (Pos.pow 10 (Pos.of_nat 6)) with 1000000%positive.
    f_equal. f_equal. specialize (Hpos E). lia.
Qed.

(** The numeral of [%f] is a fixed-point numeral with six decimals. *)
Lemma is_fixed6_pyformat_f (q : Q) : is_fixed6 (pyformat_f q) = true.
Proof.
  destruct (pyformat_f_parts q) as (ip & fp & -> & Hip & Hne & Hfp & Hlen & _).
  unfold is_fixed6.
  assert (span_digits (string_of_digits ip ++ String "." (string_of_digits fp))
          = (ip, String "." (string_of_digits fp))) as Hspan
    by (apply span_digits_written; [exact Hip | reflexivity]).
  assert (span_digits (string_of_digits fp) = (fp, EmptyString)) as Hspan2.
  { rewrite <- (append_nil_r (string_of_digits fp)).
    apply span_digits_written; [exact Hfp | reflexivity]. }
  destruct (Qnum q <? 0)%Z.
  - change ("-" ++ string_of_digits ip
            ++ String "." (string_of_digits fp))%string
      with (String "-"
              (string_of_digits ip ++ String "." (string_of_digits fp))).
    cbn [strip_minus]. rewrite Ascii.eqb_refl. cbn [snd]. rewrite Hspan.
    destruct ip as [|d ip]; [contradiction|].
    rewrite Hspan2, Hlen. reflexivity.
  - change (EmptyString ++ string_of_digits ip
            ++ String "." (string_of_digits fp))%string
      with (string_of_digits ip ++ String "." (string_of_digits fp))%string.
    rewrite (strip_minus_digits ip _ Hip Hne). cbn [snd]. rewrite Hspan.
    destruct ip as [|d ip]; [contradiction|].
    rewrite Hspan2, Hlen. reflexivity.
Qed.

(** The numeral of [%f] holds digits, a point and a minus sign only. *)
Lemma has_char_pyformat_f (c : ascii) (q : Q) :
  is_digit c = false -> Ascii.eqb "-" c = false -> Ascii.eqb "." c = false ->
  has_char c (pyformat_f q) = false.
Proof.
  intros Hd Hm Hp.
  destruct (pyformat_f_parts q) as (ip & fp & -> & Hip & _ & Hfp & _ & _).
  rewrite !has_char_app. cbn [has_char]. rewrite Hp.
  rewrite (has_char_digits c ip Hip Hd), (has_char_digits c fp Hfp Hd).
  destruct (Qnum q <? 0)%Z; cbn [has_char]; [rewrite Hm|]; reflexivity.
Qed.

Lemma pyformat_f_not_empty (q : Q) : pyformat_f q <> EmptyString.
Proof.
  destruct (pyformat_f_parts q) as (ip & fp & -> & _ & Hne & _).
  destruct ip as [|d ip]; [contradiction|].
  destruct (Qnum q <? 0)%Z; discriminate.
Qed.

(** The numeral of [%f] ends with a digit. *)
Lemma ends_with_LF_pyformat_f (q : Q) : ends_with_LF (pyformat_f q) = false.
Proof.
  destruct (pyformat_f_parts q) as (ip & fp & -> & _ & _ & Hfp & Hlen & _).
  destruct fp as [|d0 fp] using rev_ind; [discriminate|]. clear IHfp.
  apply Forall_app in Hfp. destruct Hfp as [_ Hd].
  inversion Hd as [|? ? Hd0 _]; subst.
  rewrite string_of_digits_app.
  change (String "." (string_of_digits fp ++ string_of_digits [d0]))%string
    with ("." ++ string_of_digits fp ++ string_of_digits [d0])%string.
  rewrite <- !append_assoc.
  rewrite ends_with_LF_app by discriminate.
  cbn [string_of_digits ends_with_LF].
  destruct (digit_char_ok d0 Hd0) as [H1 _].
  apply (is_digit_not _ LF H1). reflexivity.
Qed.

(** Rounding to six decimals moves a value by at most half a millionth. *)
Lemma round6_close (q : Q) : close6 (round6 q) q.
Proof.
  unfold close6, round6, micro.
  pose proof (round_half_even_near (q * (1000000 # 1))) as H.
  destruct q as [n d].
  set (m := round_half_even _) in *.
  unfold Qle, Qabs, Qminus, Qplus, Qopp, Qmult in *. cbn [Qnum Qden] in *.
  rewrite Pos.mul_1_r in H. rewrite Pos2Z.inj_mul.
  replace (m * Zpos d + - n * 1000000)%Z with (m * Zpos d - n * 1000000)%Z
    by lia.
  lia.
Qed.

(** ** Coordinate lines *)

Lemma format_row_no_LF (p : point) : has_char LF (format_row p) = false.
Proof.
  unfold format_row. rewrite !has_char_app.
  rewrite !has_char_pyformat_f by reflexivity. reflexivity.
Qed.

Lemma format_row_ends (p : point) : ends_with_LF (format_row p) = false.
Proof.
  unfold format_row. rewrite <- append_assoc.
  rewrite ends_with_LF_app by apply pyformat_f_not_empty.
  apply ends_with_LF_pyformat_f.
Qed.

(** The words of a coordinate line are its two numerals. *)
Lemma words_format_row (p : point) :
  words (format_row p) = [pyformat_f (fst p); pyformat_f (snd p)].
Proof.
  unfold words, format_row.
  change (pyformat_f (fst p) ++ " " ++ pyformat_f (snd p))%string
    with (pyformat_f (fst p) ++ String " " (pyformat_f (snd p)))%string.
  rewrite split_on_app by (apply has_char_pyformat_f; reflexivity).
  rewrite split_on_none by (apply has_char_pyformat_f; reflexivity).
  cbn [filter].
  destruct (String.eqb_spec (pyformat_f (fst p)) EmptyString) as [E|_];
    [exfalso; exact (pyformat_f_not_empty _ E)|].
  destruct (String.eqb_spec (pyformat_f (snd p)) EmptyString) as [E|_];
    [exfalso; exact (pyformat_f_not_empty _ E)|].
  reflexivity.
Qed.

(** A coordinate line reads back as the row rounded to six decimals. *)
Lemma parse_line_format_row (p : point) :
  parse_line (format_row p) = Some (round6_point p).
Proof.
  unfold parse_line. rewrite words_format_row, !decimal_value_pyformat_f.
  reflexivity.
Qed.

Lemma parse_rows_format_row (C : coords) :
  parse_rows (map format_row C) = Ok (map round6_point C).
Proof.
  induction C as [|p C IH]; [reflexivity|].
  cbn [map parse_rows]. rewrite parse_line_format_row, IH. reflexivity.
Qed.

Lemma coords_round6_close (C : coords) :
  coords_close6 (map round6_point C) C.
Proof.
  induction C as [|p C IH]; constructor; [|exact IH].
  split; apply round6_close.
Qed.

(** Joining the formatted rows gives the coordinate lines of the
    specification. *)
Lemma concat_format_rows (C : coords) :
  String.concat newline (map format_row C) = coordinate_lines pyformat_f C.
Proof.
  induction C as [|p C IH]; [reflexivity|].
  destruct C as [|p' C]; [reflexivity|].
  change (String.concat newline (map format_row (p :: p' :: C)))
    with (format_row p ++ newline
          ++ String.concat newline (map format_row (p' :: C)))%string.
  rewrite IH. unfold format_row.
  cbn [coordinate_lines]. rewrite !append_assoc. reflexivity.
Qed.

Lemma concat_contents (n : string) (C : coords) (b : bool) :
  String.concat newline
    (([] ++ if b then [n] else []) ++ map format_row C) =
  dat_text pyformat_f n C b.
Proof.
  destruct b; cbn [app dat_text]; [|apply concat_format_rows].
  destruct C as [|p C]; [reflexivity|].
  change (String.concat newline (n :: map format_row (p :: C)))
    with (n ++ newline
          ++ String.concat newline (map format_row (p :: C)))%string.
  rewrite concat_format_rows. reflexivity.
Qed.

Lemma coordinate_lines_end (C : coords) :
  C <> [] -> ends_with_LF (coordinate_lines pyformat_f C) = false.
Proof.
  induction C as [|p C IH]; [contradiction|]. intros _.
  destruct C as [|p' C]; [apply (format_row_ends p)|].
  change (coordinate_lines pyformat_f (p :: p' :: C))
    with (pyformat_f (fst p) ++ " " ++ pyformat_f (snd p) ++ newline
          ++ coordinate_lines pyformat_f (p' :: C))%string.
  assert (coordinate_lines pyformat_f (p' :: C) <> EmptyString) as Hne.
  { destruct C; cbn [coordinate_lines]; intros E;
      (destruct (pyformat_f (fst p')) eqn:F;
       [exact (pyformat_f_not_empty _ F) | discriminate E]). }
  rewrite <- !append_assoc. rewrite ends_with_LF_app by exact Hne.
  apply IH. discriminate.
Qed.

Section WriteFacts.

Context {World : Type} (env : externals World).

(** [write_dat] on an instance whose coordinates are an array. *)
Lemma write_dat_eq (filepath : option string) (b : bool) (s : state World)
    (C : coords) :
  coordinates (self s) = PyArray C ->
  Airfoil.write_dat env filepath b s =
  let text := dat_text pyformat_f (name (self s)) C b in
  match filepath with
  | None => (s, Ok text)
  | Some p =>
      match write_file env p text (world s) with
      | (w', Ok _) =>
          (mk_state w' (trace s ++ [CallWrite p text]) (self s), Ok text)
      | (w', Raise e) =>
          (mk_state w' (trace s ++ [CallWrite p text]) (self s), Raise e)
      end
  end.
Proof.
  intros HC.
  unfold Airfoil.write_dat, bind, get_name, get_coordinates.
  rewrite HC. cbn [Airfoil.formatted_rows ret].
  replace (if b then [] ++ [name (self s)] else [])
    with ([] ++ if b then [name (self s)] else [])
    by (destruct b; reflexivity).
  rewrite concat_contents.
  destruct filepath as [p|]; [|reflexivity].
  unfold extern.
  destruct (write_file env p _ (world s)) as [w' [u|e]]; reflexivity.
Qed.

End WriteFacts.

(** ** The text [write_dat] returns *)

Lemma lines_of_concat (l : string) (ls : list string) :
  Forall (fun p => has_char LF p = false) (l :: ls) ->
  lines_of (String.concat newline (l :: ls)) = l :: ls.
Proof.
  apply split_on_concat.
Qed.

Lemma format_rows_no_LF (C : coords) :
  Forall (fun p => has_char LF p = false) (map format_row C).
Proof.
  apply Forall_map, Forall_forall. intros p _. apply format_row_no_LF.
Qed.

(** The lines of a text with its name line. *)
Lemma lines_of_named (n : string) (C : coords) :
  has_char LF n = false ->
  lines_of (dat_text pyformat_f n C true) = n :: map format_row C.
Proof.
  intros Hn. rewrite <- concat_contents. cbn [app].
  apply lines_of_concat. constructor; [exact Hn | apply format_rows_no_LF].
Qed.

(** The lines of a text without a name line. *)
Lemma lines_of_unnamed (n : string) (C : coords) :
  C <> [] ->
  lines_of (dat_text pyformat_f n C false) = map format_row C.
Proof.
  intros HC. rewrite <- concat_contents. cbn [app].
  destruct C as [|p C]; [contradiction|].
  apply (lines_of_concat (format_row p) (map format_row C)).
  apply (format_rows_no_LF (p :: C)).
Qed.

(** Reading the text of a file whose name line, if any, is one line and is
    not numeric data. *)
Lemma read_dat_dat_text (n : string) (C : coords) (b : bool) :
  (b = true -> has_char LF n = false /\ parse_line n = None) ->
  read_dat (dat_text pyformat_f n C b) = Ok (map round6_point C).
Proof.
  intros H. unfold read_dat. destruct b.
  - destruct (H eq_refl) as [Hn Hp].
    rewrite (lines_of_named n C Hn), Hp. apply parse_rows_format_row.
  - destruct C as [|p C]; [reflexivity|].
    rewrite (lines_of_unnamed n (p :: C)) by discriminate.
    cbn [map]. rewrite parse_line_format_row.
    apply (parse_rows_format_row (p :: C)).
Qed.

Section WriteClaims.

Context {World : Type} (env : externals World).

(** C7 (as amended): for every array of finite coordinates, of three points
    or of any other length, and every name that is a single line and is not
    itself a coordinate line, the text [write_dat] returns, with or without
    the name, reads back as the points in their order, each component being
    the exact decimal value of its numeral: the original value rounded to
    six decimals, so within half a millionth of it.  The conversion of that
    decimal to a binary float, which a reader that returns floats makes
    next, is not part of the statement. *)
Theorem read_back_written_coordinates
    (s : state World) (C : coords) (include_name : bool) :
  coordinates (self s) = PyArray C ->
  (include_name = true ->
   has_char LF (name (self s)) = false /\ parse_line (name (self s)) = None) ->
  exists text,
    Airfoil.write_dat env None include_name s = (s, Ok text) /\
    read_dat text = Ok (map round6_point C) /\
    coords_close6 (map round6_point C) C.
Proof.
  intros HC Hn.
  exists (dat_text pyformat_f (name (self s)) C include_name).
  split; [apply (write_dat_eq env None include_name s C HC)|].
  split; [apply read_dat_dat_text; exact Hn | apply coords_round6_close].
Qed.

(** C8 (as amended): for a non-empty coordinate sequence the text written
    without the name has as many lines as the sequence has points; for a name
    with no line feed the text written with the name has one line more, and
    its first line is the name. *)
Theorem write_dat_line_count (s : state World) (C : coords) :
  coordinates (self s) = PyArray C ->
  (C <> [] ->
   exists text,
     Airfoil.write_dat env None false s = (s, Ok text) /\
     List.length (lines_of text) = List.length C) /\
  (has_char LF (name (self s)) = false ->
   exists text,
     Airfoil.write_dat env None true s = (s, Ok text) /\
     List.length (lines_of text) = S (List.length C) /\
     hd_error (lines_of text) = Some (name (self s))).
Proof.
  intros HC. split.
  - intros Hne.
    exists (dat_text pyformat_f (name (self s)) C false).
    split; [apply (write_dat_eq env None false s C HC)|].
    rewrite lines_of_unnamed by exact Hne. apply length_map.
  - intros Hn.
    exists (dat_text pyformat_f (name (self s)) C true).
    split; [apply (write_dat_eq env None true s C HC)|].
    rewrite lines_of_named by exact Hn.
    cbn [List.length hd_error]. rewrite length_map. split; reflexivity.
Qed.

(** C10 (as amended): for every name and every array of finite coordinates,
    the text [write_dat] returns is the name, verbatim, when it is asked
    for, then one line per coordinate, the lines separated by single line
    feeds and nothing after the last one; a line is the two numerals of [%f]
    with one space between them, and such a numeral is a fixed-point numeral
    with exactly six decimals that denotes the value rounded to six
    decimals.  The text ends with a line feed in one case only: the array has
    no row, the name is asked for and the name itself ends with one.  With a
    path the same text is written to the file, and returned if the writing
    did not raise. *)
Theorem write_dat_text_layout
    (s : state World) (C : coords) (include_name : bool) :
  coordinates (self s) = PyArray C ->
  let text := dat_text pyformat_f (name (self s)) C include_name in
  Airfoil.write_dat env None include_name s = (s, Ok text) /\
  (forall p,
     Airfoil.write_dat env (Some p) include_name s =
     match write_file env p text (world s) with
     | (w', Ok _) =>
         (mk_state w' (trace s ++ [CallWrite p text]) (self s), Ok text)
     | (w', Raise e) =>
         (mk_state w' (trace s ++ [CallWrite p text]) (self s), Raise e)
     end) /\
  (forall q,
     is_fixed6 (pyformat_f q) = true /\
     decimal_value (pyformat_f q) = Some (round6 q) /\
     close6 (round6 q) q) /\
  ends_with_LF text =
    match C with
    | [] => include_name && ends_with_LF (name (self s))
    | _ :: _ => false
    end.
Proof.
  intros HC text. split; [apply (write_dat_eq env None include_name s C HC)|].
  split; [intros p; apply (write_dat_eq env (Some p) include_name s C HC)|].
  split.
  - intros q. split; [apply is_fixed6_pyformat_f|].
    split; [apply decimal_value_pyformat_f | apply round6_close].
  - unfold text, dat_text. destruct C as [|p C].
    + destruct include_name; reflexivity.
    + assert (p :: C <> []) as Hne by discriminate.
      destruct include_name; [|apply coordinate_lines_end; exact Hne].
      assert (coordinate_lines pyformat_f (p :: C) <> EmptyString) as Hc.
      { intros E.
        destruct C; cbn [coordinate_lines] in E;
          (destruct (pyformat_f (fst p)) eqn:F;
           [exact (pyformat_f_not_empty _ F) | discriminate E]). }
      rewrite <- append_assoc, ends_with_LF_app by exact Hc.
      apply coordinate_lines_end. exact Hne.
Qed.

End WriteClaims.

(** The airfoil ["wing"] of the fakes, written with its name and read back. *)
Lemma read_back_written_coordinates_witness :
  exists text,
    Airfoil.write_dat Fake.env None true (mk_state 0%nat [] Fake.wing) =
      (mk_state 0%nat [] Fake.wing, Ok text) /\
    read_dat text = Ok (map round6_point Fake.square) /\
    coords_close6 (map round6_point Fake.square) Fake.square.
Proof.
  apply (read_back_written_coordinates Fake.env
           (mk_state 0%nat [] Fake.wing) Fake.square true).
  - reflexivity.
  - intros _. split; reflexivity.
Defined.

(** The airfoil ["wing"] of the fakes has four points: four lines without
    the name, five with it. *)
Lemma write_dat_line_count_witness :
  (exists text,
     Airfoil.write_dat Fake.env None false (mk_state 0%nat [] Fake.wing) =
       (mk_state 0%nat [] Fake.wing, Ok text) /\
     List.length (lines_of text) = 4%nat) /\
  (exists text,
     Airfoil.write_dat Fake.env None true (mk_state 0%nat [] Fake.wing) =
       (mk_state 0%nat [] Fake.wing, Ok text) /\
     List.length (lines_of text) = 5%nat /\
     hd_error (lines_of text) = Some "wing").
Proof.
  destruct (write_dat_line_count Fake.env (mk_state 0%nat [] Fake.wing)
              Fake.square eq_refl) as [H1 H2].
  split; [apply H1; discriminate | apply H2; reflexivity].
Defined.

(** The text of the airfoil ["wing"] of the fakes. *)
Lemma write_dat_text_layout_witness :
  Airfoil.write_dat Fake.env None true (mk_state 0%nat [] Fake.wing) =
  (mk_state 0%nat [] Fake.wing,
   Ok "wing
1.000000 0.000000
0.000000 1.000000
0.000000 0.000000
1.000000 0.000000").
Proof.
  destruct (write_dat_text_layout Fake.env (mk_state 0%nat [] Fake.wing)
              Fake.square true eq_refl) as [H _].
  exact H.
Defined.

(** C10, refuted as stated: for an array with no row and a name that ends
    with a line feed, the text written with the name is the name, and it
    ends with a line feed. *)
Lemma write_dat_trailing_newline_counterexample :
  let o := mk_obj (String.append "wing" newline) (PyArray []) (Some [])
             (Some []) None None in
  Airfoil.write_dat Fake.env None true (mk_state 0%nat [] o) =
    (mk_state 0%nat [] o, Ok (String.append "wing" newline)) /\
  ends_with_LF (String.append "wing" newline) = true.
Proof.
  split; reflexivity.
Qed.

(** Two airfoils, one text: a name that reads as a coordinate line cannot be
    told from a first point. *)
Lemma same_text_two_airfoils :
  dat_text pyformat_f "0.500000 0.500000" Fake.square true =
  dat_text pyformat_f "wing" ((1 # 2, 1 # 2) :: Fake.square) false.
Proof.
  reflexivity.
Qed.

Lemma coords_close6_length (C' C : coords) :
  coords_close6 C' C -> List.length C' = List.length C.
Proof.
  apply Forall2_length.
Qed.

(** C7, refuted as stated: the airfoil built from the file ["wing.dat"] under
    the name ["0.500000 0.500000"] has four points, and the text written
    with the name reads back as five.  No reader can do better: that text is
    also the text, without a name, of an airfoil of five points. *)
Lemma read_back_counterexample :
  Airfoil.new Fake.env "0.500000 0.500000" (Some "wing.dat") 0%nat =
    (0%nat, [CallFile "wing.dat"], Ok Fake.numbered) /\
  (exists text C',
     Airfoil.write_dat Fake.env None true (mk_state 0%nat [] Fake.numbered) =
       (mk_state 0%nat [] Fake.numbered, Ok text) /\
     read_dat text = Ok C' /\
     List.length C' = 5%nat /\
     ~ coords_close6 C' Fake.square) /\
  ~ (exists read : string -> result coords,
       forall n C b,
         (3 <= List.length C)%nat ->
         exists C',
           read (dat_text pyformat_f n C b) = Ok C' /\ coords_close6 C' C).
Proof.
  split; [reflexivity|]. split.
  - exists (dat_text pyformat_f "0.500000 0.500000" Fake.square true).
    exists (map round6_point ((1 # 2, 1 # 2) :: Fake.square)).
    split; [reflexivity|]. split; [reflexivity|]. split; [reflexivity|].
    intros H. apply coords_close6_length in H. discriminate H.
  - intros [read H].
    destruct (H "0.500000 0.500000" Fake.square true) as (C1 & R1 & H1);
      [simpl; lia|].
    destruct (H "wing" ((1 # 2, 1 # 2) :: Fake.square) false)
      as (C2 & R2 & H2); [simpl; lia|].
    rewrite same_text_two_airfoils, R2 in R1. inversion R1; subst.
    apply coords_close6_length in H1, H2. simpl in H1, H2. congruence.
Qed.

(** C8, refuted as stated: the airfoil built from the file ["wing.dat"] under
    a name that ends with a line feed has four points, and the text written
    with the name has six lines, the first of which is not the name; and the
    text of an array with no row, written without the name, is the empty
    text, which splits into one line. *)
Lemma write_dat_line_count_counterexample :
  Airfoil.new Fake.env (String.append "wing" newline) (Some "wing.dat") 0%nat =
    (0%nat, [CallFile "wing.dat"], Ok Fake.trailing) /\
  (exists text,
     Airfoil.write_dat Fake.env None true (mk_state 0%nat [] Fake.trailing) =
       (mk_state 0%nat [] Fake.trailing, Ok text) /\
     List.length (lines_of text) = 6%nat /\
     hd_error (lines_of text) = Some "wing" /\
     name Fake.trailing <> "wing") /\
  (exists text,
     Airfoil.write_dat Fake.env None false (mk_state 0%nat [] Fake.hollow) =
       (mk_state 0%nat [] Fake.hollow, Ok text) /\
     text = EmptyString /\
     List.length (lines_of text) = 1%nat).
Proof.
  split; [reflexivity|]. split.
  - exists (dat_text pyformat_f (String.append "wing" newline) Fake.square true).
    split; [reflexivity|]. split; [reflexivity|].
    split; [reflexivity | discriminate].
  - exists EmptyString. split; [reflexivity|]. split; reflexivity.
Qed.

(** * Further properties of the class *)

(** ** Construction *)

Section ConstructionMore.

Context {World : Type} (env : externals World).

(** X1: an exception of the generator that is neither a [ValueError] nor a
    [NotImplementedError] leaves the constructor as it is; the database is
    not consulted. *)
Theorem generator_error_propagates
    (n : string) (w w1 : World) (e1 : exn) :
  get_NACA_coordinates env n w = (w1, Raise e1) ->
  isinstance e1 "ValueError" || isinstance e1 "NotImplementedError" = false ->
  Airfoil.new env n None w = (w1, [CallNACA n], Raise e1).
Proof.
  intros H1 Hc. unfold Airfoil.new. rewrite init_without_path.
  cbn [world trace self fresh_obj]. rewrite H1, Hc. reflexivity.
Qed.

(** X2: when the generator declined, an exception of the database that is
    not a [FileNotFoundError] leaves the constructor as it is: it is not
    replaced by the exception that says no coordinates were assigned. *)
Theorem database_error_propagates
    (n : string) (w w1 w2 : World) (e1 e2 : exn) :
  get_NACA_coordinates env n w = (w1, Raise e1) ->
  isinstance e1 "ValueError" || isinstance e1 "NotImplementedError" = true ->
  get_UIUC_coordinates env n w1 = (w2, Raise e2) ->
  isinstance e2 "FileNotFoundError" = false ->
  Airfoil.new env n None w = (w2, [CallNACA n; CallUIUC n], Raise e2).
Proof.
  intros H1 Hc1 H2 Hc2. unfold Airfoil.new. rewrite init_without_path.
  cbn [world trace self fresh_obj]. rewrite H1, Hc1, H2, Hc2. reflexivity.
Qed.

(** X3: when the generator declined and the database knows the name, the
    caller gets an instance with the coordinates of the database. *)
Theorem database_is_the_fallback
    (n : string) (w w1 w2 : World) (e1 : exn) (C : coords) :
  get_NACA_coordinates env n w = (w1, Raise e1) ->
  isinstance e1 "ValueError" || isinstance e1 "NotImplementedError" = true ->
  get_UIUC_coordinates env n w1 = (w2, Ok C) ->
  Airfoil.new env n None w =
  (w2, [CallNACA n; CallUIUC n],
   Ok (mk_obj n (PyArray C) (Some (map fst C)) (Some (map snd C)) None None)).
Proof.
  intros H1 Hc1 H2. unfold Airfoil.new. rewrite init_without_path.
  cbn [world trace self fresh_obj]. rewrite H1, Hc1, H2. reflexivity.
Qed.

(** The instance a caller gets, in full. *)
Lemma new_instance_shape
    (n : string) (path : option string) (w w' : World) (calls : list call)
    (o : obj) :
  Airfoil.new env n path w = (w', calls, Ok o) ->
  exists C,
    o = mk_obj n (PyArray C) (Some (map fst C)) (Some (map snd C)) None None.
Proof.
  unfold Airfoil.new. destruct path as [p|].
  - rewrite init_with_path. cbn [world trace self fresh_obj polars Res].
    destruct (get_file_coordinates env p w) as [w1 [c|e]]; intros H;
      inversion H; subst.
    exists c. reflexivity.
  - rewrite init_without_path. cbn [world trace self fresh_obj polars Res].
    destruct (get_NACA_coordinates env n w) as [w1 [c|e1]].
    + intros H; inversion H; subst. exists c. reflexivity.
    + destruct (isinstance e1 "ValueError"
                || isinstance e1 "NotImplementedError");
        [|intros H; inversion H].
      destruct (get_UIUC_coordinates env n w1) as [w2 [c|e2]].
      * intros H; inversion H; subst. exists c. reflexivity.
      * destruct (isinstance e2 "FileNotFoundError");
          intros H; inversion H.
Qed.

(** X4: every instance a caller gets carries the name it was given and an
    array; [x] and [y] are the two columns of that array, so they have as
    many entries as the array has rows; no dataset and no list of Reynolds
    numbers is attached yet. *)
Theorem new_instance_invariant
    (n : string) (path : option string) (w w' : World) (calls : list call)
    (o : obj) :
  Airfoil.new env n path w = (w', calls, Ok o) ->
  exists C,
    o = mk_obj n (PyArray C) (Some (map fst C)) (Some (map snd C)) None None /\
    List.length (map fst C) = List.length C /\
    List.length (map snd C) = List.length C.
Proof.
  intros H. destruct (new_instance_shape _ _ _ _ _ _ H) as [C HC].
  exists C. rewrite !length_map. repeat split. exact HC.
Qed.

(** X5: the constructor makes at most two calls, and only to the providers:
    to the file reader with the path it was given, or to the generator and
    the database with the name.  It never runs the solver and never writes
    a file. *)
Theorem construction_calls_providers_only
    (n : string) (path : option string) (w : World) :
  let '(_, calls, _) := Airfoil.new env n path w in
  (List.length calls <= 2)%nat /\
  forall c, In c calls ->
    (path = None /\ (c = CallNACA n \/ c = CallUIUC n)) \/
    (exists p, path = Some p /\ c = CallFile p).
Proof.
  unfold Airfoil.new. destruct path as [p|].
  - rewrite init_with_path. cbn [world trace self fresh_obj].
    destruct (get_file_coordinates env p w) as [w1 [c|e]];
      cbn [trace app List.length]; (split; [lia|]);
      intros c0 [<-|[]]; right; exists p; split; reflexivity.
  - rewrite init_without_path. cbn [world trace self fresh_obj].
    destruct (get_NACA_coordinates env n w) as [w1 [c|e1]].
    + cbn [trace app List.length]. split; [lia|].
      intros c0 [<-|[]]. left; split; [reflexivity | left; reflexivity].
    + destruct (isinstance e1 "ValueError"
                || isinstance e1 "NotImplementedError").
      * destruct (get_UIUC_coordinates env n w1) as [w2 [c|e2]];
          [|destruct (isinstance e2 "FileNotFoundError")];
          cbn [trace app List.length]; (split; [lia|]);
          intros c0 [<-|[<-|[]]]; left;
          (split; [reflexivity | auto]).
      * cbn [trace app List.length]. split; [lia|].
        intros c0 [<-|[]]. left; split; [reflexivity | left; reflexivity].
Qed.

End ConstructionMore.

(** The generator of the fakes raises a [ValueError] for ["e423"], and the
    database knows it. *)
Lemma database_is_the_fallback_witness :
  Airfoil.new Fake.env "e423" None 0%nat =
  (0%nat, [CallNACA "e423"; CallUIUC "e423"],
   Ok (mk_obj "e423" (PyArray Fake.square) (Some (map fst Fake.square))
         (Some (map snd Fake.square)) None None)).
Proof.
  apply (database_is_the_fallback Fake.env "e423" 0%nat 0%nat 0%nat
           (ValueError "not a NACA airfoil") Fake.square);
    reflexivity.
Defined.

Lemma new_instance_invariant_witness :
  exists C,
    Fake.wing =
      mk_obj "wing" (PyArray C) (Some (map fst C)) (Some (map snd C))
        None None /\
    List.length (map fst C) = List.length C /\
    List.length (map snd C) = List.length C.
Proof.
  apply (new_instance_invariant Fake.env "wing" (Some "wing.dat")
           0%nat 0%nat [CallFile "wing.dat"] Fake.wing).
  reflexivity.
Defined.

Lemma generator_error_propagates_witness :
  Airfoil.new Faulty.env "bad" None 0%nat =
  (0%nat, [CallNACA "bad"], Raise (TypeError "name must be a string")).
Proof.
  apply (generator_error_propagates Faulty.env "bad" 0%nat 0%nat
           (TypeError "name must be a string"));
    reflexivity.
Defined.

Lemma database_error_propagates_witness :
  Airfoil.new Faulty.env "clarky" None 0%nat =
  (0%nat, [CallNACA "clarky"; CallUIUC "clarky"],
   Raise (Faulty.PermissionError "cannot read the database")).
Proof.
  apply (database_error_propagates Faulty.env "clarky" 0%nat 0%nat 0%nat
           (ValueError "not a NACA airfoil")
           (Faulty.PermissionError "cannot read the database"));
    reflexivity.
Defined.

(** ** [write_dat] *)

Section WriteMore.

Context {World : Type} (env : externals World).

(** [write_dat] in any state, whatever [self.coordinates] holds. *)
Lemma write_dat_any (filepath : option string) (b : bool) (s : state World) :
  Airfoil.write_dat env filepath b s =
  match Airfoil.formatted_rows (World := World) (coordinates (self s)) s with
  | (_, Raise e) => (s, Raise e)
  | (_, Ok rows) =>
      let text :=
        String.concat newline
          ((if b then [] ++ [name (self s)] else []) ++ rows) in
      match filepath with
      | None => (s, Ok text)
      | Some p =>
          match write_file env p text (world s) with
          | (w', Ok _) =>
              (mk_state w' (trace s ++ [CallWrite p text]) (self s), Ok text)
          | (w', Raise e) =>
              (mk_state w' (trace s ++ [CallWrite p text]) (self s), Raise e)
          end
      end
  end.
Proof.
  unfold Airfoil.write_dat, bind, get_name, get_coordinates.
  destruct (coordinates (self s)) as [|[|c p]|C];
    cbn [Airfoil.formatted_rows ret raise]; try reflexivity;
    (destruct filepath as [p0|]; [|reflexivity]);
    unfold extern;
    match goal with
    | |- context [write_file env ?p ?t ?w] =>
        destruct (write_file env p t w) as [w' [u|e]]; reflexivity
    end.
Qed.

(** X6: [write_dat] assigns no attribute.  Without a path it touches
    nothing at all, also when it raises; with a path it makes at most one
    call, which writes to that path. *)
Theorem write_dat_frame (filepath : option string) (b : bool)
    (s : state World) :
  let s' := fst (Airfoil.write_dat env filepath b s) in
  self s' = self s /\
  (filepath = None -> s' = s) /\
  (forall p, filepath = Some p ->
     s' = s \/
     exists text,
       trace s' = trace s ++ [CallWrite p text] /\
       world s' = fst (write_file env p text (world s))).
Proof.
  cbv zeta. rewrite write_dat_any.
  destruct (Airfoil.formatted_rows (coordinates (self s)) s) as [s0 [rows|e]].
  - cbv zeta. destruct filepath as [p|].
    + destruct (write_file env p _ (world s)) as [w' [u|e]] eqn:E;
        cbn [fst self trace world];
        (split; [reflexivity|]);
        (split; [discriminate|]);
        intros p0 Hp; inversion Hp; subst; right;
        eexists; rewrite E; split; reflexivity.
    + cbn [fst]. split; [reflexivity|]. split; [reflexivity|].
      intros p Hp; discriminate Hp.
  - cbn [fst]. split; [reflexivity|]. split; [reflexivity|].
    intros p Hp. left. reflexivity.
Qed.

(** X7: what [write_dat] returns is a function of the name and of
    [self.coordinates] (and of the file system, when a path is given): [x],
    [y], the dataset and the list of Reynolds numbers are not read.  Without
    the name line it is a function of [self.coordinates] alone. *)
Theorem write_dat_reads_name_and_coordinates
    (filepath : option string) (b : bool) (s1 s2 : state World) :
  world s1 = world s2 ->
  coordinates (self s1) = coordinates (self s2) ->
  (b = true -> name (self s1) = name (self s2)) ->
  snd (Airfoil.write_dat env filepath b s1) =
  snd (Airfoil.write_dat env filepath b s2).
Proof.
  intros Hw Hc Hn. rewrite !write_dat_any, <- Hc, <- Hw.
  assert ((if b then [] ++ [name (self s1)] else []) =
          (if b then [] ++ [name (self s2)] else [])) as Hb
    by (destruct b; [rewrite (Hn eq_refl)|]; reflexivity).
  destruct (coordinates (self s1)) as [|[|c p]|C];
    cbn [Airfoil.formatted_rows ret raise snd]; try reflexivity;
    cbv zeta; rewrite <- Hb;
    (destruct filepath as [p0|]; [|reflexivity]);
    match goal with
    | |- context [write_file env ?p ?t ?w] =>
        destruct (write_file env p t w) as [w' [u|e]]; reflexivity
    end.
Qed.

(** X8: the text without the name line loses nothing but the rounding: two
    arrays that give the same text are equal once every component is
    rounded to six decimals; in particular they have the same number of
    rows. *)
Theorem equal_texts_equal_rounded_coordinates
    (s1 s2 : state World) (C1 C2 : coords) (text : string) :
  coordinates (self s1) = PyArray C1 ->
  coordinates (self s2) = PyArray C2 ->
  snd (Airfoil.write_dat env None false s1) = Ok text ->
  snd (Airfoil.write_dat env None false s2) = Ok text ->
  map round6_point C1 = map round6_point C2 /\
  List.length C1 = List.length C2.
Proof.
  intros H1 H2 T1 T2.
  rewrite (write_dat_eq env None false s1 C1 H1) in T1.
  rewrite (write_dat_eq env None false s2 C2 H2) in T2.
  cbn [snd] in T1, T2. cbv zeta in T1, T2.
  assert (dat_text pyformat_f (name (self s1)) C1 false = text) as E1
    by congruence.
  assert (dat_text pyformat_f (name (self s2)) C2 false = text) as E2
    by congruence.
  pose proof (read_dat_dat_text (name (self s1)) C1 false) as R1.
  pose proof (read_dat_dat_text (name (self s2)) C2 false) as R2.
  rewrite E1 in R1. rewrite E2 in R2.
  assert (map round6_point C1 = map round6_point C2) as Hm.
  { assert (Ok (map round6_point C1) = Ok (map round6_point C2)) as Hr.
    { rewrite <- R1, <- R2 by discriminate. reflexivity. }
    inversion Hr. reflexivity. }
  split; [exact Hm|].
  apply (f_equal (@List.length point)) in Hm.
  rewrite !length_map in Hm. exact Hm.
Qed.

End WriteMore.

(** An instance with its columns, dataset and list removed writes the text
    of the airfoil ["wing"]. *)
Lemma write_dat_reads_name_and_coordinates_witness :
  snd (Airfoil.write_dat Fake.env None true (mk_state 0%nat [] Fake.wing)) =
  snd (Airfoil.write_dat Fake.env None true
         (mk_state 0%nat [CallNACA "wing"]
            (mk_obj "wing" (PyArray Fake.square) None None (Some [])
               (Some [1])))).
Proof.
  apply (write_dat_reads_name_and_coordinates Fake.env None true);
    reflexivity.
Defined.

(** A third and its six decimals are written alike. *)
Lemma equal_texts_equal_rounded_coordinates_witness :
  map round6_point [(1 # 3, 0)] = map round6_point [(333333 # 1000000, 0)] /\
  List.length [(1 # 3, 0)] = List.length [(333333 # 1000000, 0)].
Proof.
  apply (equal_texts_equal_rounded_coordinates Fake.env
           (mk_state 0%nat []
              (mk_obj "third" (PyArray [(1 # 3, 0)]) None None None None))
           (mk_state 0%nat []
              (mk_obj "decimal" (PyArray [(333333 # 1000000, 0)])
                 None None None None))
           [(1 # 3, 0)] [(333333 # 1000000, 0)]
           "0.333333 0.000000");
    reflexivity.
Defined.

(** ** The calls of a sweep *)

Section SweepMore.

Context {World : Type} (env : externals World).

Variables (alpha_i alpha_f alpha_step : Q) (n_iter : Z)
  (working_directory : option string).

(** X9: the runs of the solver in a sweep: one per Reynolds number in the
    order of the list, each in the world the run before it left, all with
    the parameters of the sweep and with the attributes the airfoil had when
    the sweep began.  A sweep that returns made them all and they all
    returned; a sweep that raises made the runs up to the first one that
    raised, which raised what the sweep raises, and none after it. *)
Theorem sweep_call_log (Rs : list Q) (mp : Z) (s : state World) :
  let (s', r) :=
    Airfoil.generate_polars_xfoil env alpha_i alpha_f alpha_step Rs n_iter mp
      working_directory s in
  match r with
  | Ok ds =>
      solver_returns env
        (fun Re => mk_xfoil_args (self s) alpha_i alpha_f alpha_step Re
                     n_iter working_directory)
        (world s) Rs (world s') ds /\
      trace s' =
      trace s ++
      map (sweep_call (self s) alpha_i alpha_f alpha_step n_iter
             working_directory) Rs
  | Raise e =>
      exists tried Rs2,
        Rs = tried ++ Rs2 /\
        solver_raises env
          (fun Re => mk_xfoil_args (self s) alpha_i alpha_f alpha_step Re
                       n_iter working_directory)
          (world s) Rs (world s') e tried /\
        trace s' =
        trace s ++
        map (sweep_call (self s) alpha_i alpha_f alpha_step n_iter
               working_directory) tried
  end.
Proof.
  rewrite generate_polars_xfoil_eq.
  pose proof (run_datas_runs env alpha_i alpha_f alpha_step n_iter
                working_directory Rs s) as H.
  destruct (Airfoil.run_datas env alpha_i alpha_f alpha_step Rs n_iter
              working_directory s) as [s1 [ds|e]].
  - destruct H as [_ H]. exact H.
  - destruct H as [_ (tried & Hr & Ht)].
    destruct (solver_raises_prefix env _ _ _ _ _ _ Hr) as [_ [Rs2 HRs]].
    exists tried, Rs2. repeat split; assumption.
Qed.

End SweepMore.

(** ** Rendering *)

Lemma plots_on_app (row col : Z) (l1 l2 : list plot_call) :
  plots_on row col (l1 ++ l2) = plots_on row col l1 ++ plots_on row col l2.
Proof.
  induction l1 as [|c l1 IH]; [reflexivity|].
  destruct c; cbn [app plots_on]; try exact IH.
  destruct ((row0 =? row)%Z && (col0 =? col)%Z); cbn [app]; rewrite IH;
    reflexivity.
Qed.

Lemma legends_app (l1 l2 : list plot_call) :
  legends (l1 ++ l2) = legends l1 ++ legends l2.
Proof.
  induction l1 as [|c l1 IH]; [reflexivity|].
  destruct c; cbn [app legends]; try exact IH.
  rewrite IH. reflexivity.
Qed.

Section RenderingFacts.

Context {World : Type} (penv : plotting World).

(** A plotting call that returns. *)
Lemma bind_plt {A : Type} (c : plot_call)
    (k : unit -> M (World * list plot_call) A)
    (w : World) (log : list plot_call) (tr : list call) (o : obj) :
  is_ok (snd (do_plot penv c w)) = true ->
  bind (AirfoilPlots.plt penv c) k (mk_state (w, log) tr o) =
  k tt (mk_state (fst (do_plot penv c w), log ++ [c]) tr o).
Proof.
  unfold bind, AirfoilPlots.plt. cbn [world fst snd trace self].
  destruct (do_plot penv c w) as [w' [[]|e]]; cbn [snd is_ok fst];
    [reflexivity | discriminate].
Qed.

Lemma plt_run (c : plot_call)
    (w : World) (log : list plot_call) (tr : list call) (o : obj) :
  is_ok (snd (do_plot penv c w)) = true ->
  AirfoilPlots.plt penv c (mk_state (w, log) tr o) =
  (mk_state (fst (do_plot penv c w), log ++ [c]) tr o, Ok tt).
Proof.
  unfold AirfoilPlots.plt. cbn [world fst snd trace self].
  destruct (do_plot penv c w) as [w' [[]|e]]; cbn [snd is_ok fst];
    [reflexivity | discriminate].
Qed.

Section Quiet.

Hypothesis quiet : forall c w, is_ok (snd (do_plot penv c w)) = true.

(** One plotting call that returns, the world it leaves being named. *)
Ltac plt_step :=
  match goal with
  | |- context [bind (AirfoilPlots.plt penv ?c) ?k
                  (mk_state (?w, ?log) ?tr ?o)] =>
      rewrite (bind_plt c k w log tr o (quiet c w));
      let w' := fresh "w" in
      generalize (fst (do_plot penv c w)); intros w'; cbv beta
  end.

(** The loop of [plot_polars] with plotting calls that return: the curves
    of each panel, in the order of the dataset, and no legend. *)
Lemma plot_curves_quiet (ds : list run_data)
    (w : World) (log : list plot_call) (tr : list call) (o : obj) :
  exists w' new,
    AirfoilPlots.plot_curves penv ds (mk_state (w, log) tr o) =
      (mk_state (w', log ++ new) tr o, Ok tt) /\
    plots_on 0 0 new = map (fun d => (alpha d, CL d)) ds /\
    plots_on 0 1 new = map (fun d => (alpha d, CD d)) ds /\
    plots_on 1 0 new = map (fun d => (alpha d, CM d)) ds /\
    plots_on 1 1 new = map (fun d => (CL d, CD d)) ds /\
    legends new = [].
Proof.
  revert w log; induction ds as [|d ds IH]; intros w log.
  - exists w, []. rewrite app_nil_r. repeat split.
  - cbn [AirfoilPlots.plot_curves].
    do 8 plt_step.
    match goal with
    | |- context [AirfoilPlots.plot_curves penv ds (mk_state (?w8, ?l8) _ _)] =>
        destruct (IH w8 l8)
          as (w' & new & Hrun & H00 & H01 & H10 & H11 & Hl);
        rewrite Hrun
    end.
    eexists w', (_ :: _ :: _ :: _ :: _ :: _ :: _ :: _ :: new).
    split.
    + rewrite <- !app_assoc. cbn [app]. reflexivity.
    + cbn [plots_on legends map Z.eqb andb].
      rewrite H00, H01, H10, H11, Hl. repeat split.
Qed.

(** [plot_polars] on an instance with a dataset and a list of Reynolds
    numbers, the plotting calls returning. *)
Lemma plot_polars_quiet (ds : list run_data) (Rs : list Q)
    (w : World) (log : list plot_call) (tr : list call) (o : obj) :
  polars o = Some ds ->
  Res o = Some Rs ->
  exists w' new,
    AirfoilPlots.plot_polars penv (mk_state (w, log) tr o) =
      (mk_state (w', log ++ new) tr o, Ok tt) /\
    plots_on 0 0 new = map (fun d => (alpha d, CL d)) ds /\
    plots_on 0 1 new = map (fun d => (alpha d, CD d)) ds /\
    plots_on 1 0 new = map (fun d => (alpha d, CM d)) ds /\
    plots_on 1 1 new = map (fun d => (CL d, CD d)) ds /\
    legends new = [map (eng_string penv) Rs].
Proof.
  intros Hp HR. unfold AirfoilPlots.plot_polars.
  plt_step.
  unfold bind at 1, get_polars. cbn [self]. rewrite Hp.
  unfold bind at 1.
  match goal with
  | |- context [AirfoilPlots.plot_curves penv ds (mk_state (?w1, ?l1) _ _)] =>
      destruct (plot_curves_quiet ds w1 l1 tr o)
        as (w2 & new & Hrun & H00 & H01 & H10 & H11 & Hl);
      rewrite Hrun
  end.
  plt_step.
  unfold bind, AirfoilPlots.get_Res. cbn [self].
  rewrite HR, plt_run by apply quiet.
  eexists _, (PltSubplots 2 2 (9, 8) :: new ++ [PltSca 0 0; _]).
  split; [rewrite <- !app_assoc; reflexivity|].
  cbn [plots_on legends]. rewrite !plots_on_app, legends_app.
  cbn [plots_on legends]. rewrite !app_nil_r, H00, H01, H10, H11, Hl.
  repeat split.
Qed.

(** What [draw] returns on an instance with its columns, the plotting calls
    returning. *)
Lemma draw_quiet (draw_mcl draw_markers : bool) (backend : string)
    (show : bool) (w : World) (log : list plot_call) (tr : list call)
    (o : obj) (xs ys : list Q) :
  x o = Some xs ->
  y o = Some ys ->
  snd (AirfoilPlots.draw penv draw_mcl draw_markers backend show
         (mk_state (w, log) tr o)) =
  Ok (if String.eqb backend "plotly" && negb show
      then DrawFigure else DrawNone).
Proof.
  intros Hx Hy.
  unfold AirfoilPlots.draw.
  unfold bind at 1, AirfoilPlots.get_x. cbn [self]. rewrite Hx.
  unfold bind at 1, AirfoilPlots.get_y. cbn [self]. rewrite Hy.
  destruct (String.eqb_spec backend "matplotlib") as [->|Hm].
  - cbn [String.eqb Ascii.eqb Bool.eqb andb].
    do 3 plt_step.
    destruct show; [|reflexivity].
    unfold bind at 1, get_name. plt_step. reflexivity.
  - destruct (String.eqb backend "plotly"); [|reflexivity].
    do 2 plt_step.
    unfold bind at 1, get_name. plt_step.
    destruct show; [|reflexivity].
    plt_step. reflexivity.
Qed.

End Quiet.

End RenderingFacts.

Section RenderingClaims.

Context {World PWorld : Type} (env : externals World) (penv : plotting PWorld).

(** X10: a new instance has no dataset, and [plot_polars] on it raises an
    [AttributeError] for [polars], after it opened the figure and before it
    drew anything: a sweep has to come first. *)
Theorem plot_polars_needs_a_sweep
    (n : string) (path : option string) (w w1 : World) (calls : list call)
    (o : obj) (pw : PWorld) (log : list plot_call) (tr : list call) :
  Airfoil.new env n path w = (w1, calls, Ok o) ->
  is_ok (snd (do_plot penv (PltSubplots 2 2 (9, 8)) pw)) = true ->
  AirfoilPlots.plot_polars penv (mk_state (pw, log) tr o) =
  (mk_state (fst (do_plot penv (PltSubplots 2 2 (9, 8)) pw),
             log ++ [PltSubplots 2 2 (9, 8)]) tr o,
   Raise (AttributeError "polars")).
Proof.
  intros Hnew Hsub.
  destruct (new_instance_shape env _ _ _ _ _ _ Hnew) as (C & ->).
  unfold AirfoilPlots.plot_polars.
  rewrite bind_plt by exact Hsub. reflexivity.
Qed.

(** X11: after a sweep that returned, [plot_polars] (the plotting calls
    returning) draws in each of the four panels one curve per Reynolds number
    of the sweep, in the order of the list: lift, drag and moment against the
    angle of attack, and in the fourth panel drag against lift; its one
    legend has one label per Reynolds number, in the same order.  It assigns
    no attribute. *)
Theorem plot_polars_after_sweep
    (alpha_i alpha_f alpha_step : Q) (Rs : list Q) (n_iter mp : Z)
    (working_directory : option string) (s s1 : state World)
    (ds : list run_data) (pw : PWorld) (log : list plot_call) :
  Airfoil.generate_polars_xfoil env alpha_i alpha_f alpha_step Rs n_iter mp
    working_directory s = (s1, Ok ds) ->
  (forall c w, is_ok (snd (do_plot penv c w)) = true) ->
  exists pw' new,
    AirfoilPlots.plot_polars penv (mk_state (pw, log) (trace s1) (self s1)) =
      (mk_state (pw', log ++ new) (trace s1) (self s1), Ok tt) /\
    plots_on 0 0 new = map (fun d => (alpha d, CL d)) ds /\
    plots_on 0 1 new = map (fun d => (alpha d, CD d)) ds /\
    plots_on 1 0 new = map (fun d => (alpha d, CM d)) ds /\
    plots_on 1 1 new = map (fun d => (CL d, CD d)) ds /\
    legends new = [map (eng_string penv) Rs] /\
    List.length ds = List.length Rs.
Proof.
  intros Hsweep quiet.
  rewrite generate_polars_xfoil_eq in Hsweep.
  destruct (Airfoil.run_datas env alpha_i alpha_f alpha_step Rs n_iter
              working_directory s) as [s0 [ds0|e]] eqn:E; [|discriminate].
  inversion Hsweep; subst; clear Hsweep.
  destruct (run_datas_ok _ _ _ _ _ _ _ _ _ _ E) as [_ Hf].
  cbn [self trace].
  destruct (plot_polars_quiet penv quiet ds Rs pw log (trace s0)
              (set_Res Rs (set_polars ds (self s0))) eq_refl eq_refl)
    as (pw' & new & Hrun & H00 & H01 & H10 & H11 & Hl).
  exists pw', new.
  repeat split; try assumption.
  symmetry. exact (Forall2_length Hf).
Qed.

(** X12: with a backend that is neither ["matplotlib"] nor ["plotly"],
    [draw] returns [None] without a plotting call and without an error,
    whatever its other arguments. *)
Theorem draw_unknown_backend
    (draw_mcl draw_markers : bool) (backend : string) (show : bool)
    (s : state (PWorld * list plot_call)) (xs ys : list Q) :
  x (self s) = Some xs ->
  y (self s) = Some ys ->
  backend <> "matplotlib" ->
  backend <> "plotly" ->
  AirfoilPlots.draw penv draw_mcl draw_markers backend show s =
  (s, Ok DrawNone).
Proof.
  intros Hx Hy Hm Hp.
  unfold AirfoilPlots.draw, bind, AirfoilPlots.get_x, AirfoilPlots.get_y.
  rewrite Hx, Hy.
  apply String.eqb_neq in Hm, Hp. rewrite Hm, Hp. reflexivity.
Qed.

(** X13: the argument [draw_mcl] has no effect: the mean camber line is
    never drawn. *)
Theorem draw_ignores_draw_mcl
    (m1 m2 draw_markers : bool) (backend : string) (show : bool)
    (s : state (PWorld * list plot_call)) :
  AirfoilPlots.draw penv m1 draw_markers backend show s =
  AirfoilPlots.draw penv m2 draw_markers backend show s.
Proof.
  reflexivity.
Qed.

(** X14: on an instance with its columns, the plotting calls returning,
    [draw] returns; it returns the figure exactly when the backend is
    ["plotly"] and the figure is not shown, and [None] otherwise. *)
Theorem draw_returns_the_unshown_plotly_figure
    (draw_mcl draw_markers : bool) (backend : string) (show : bool)
    (s : state (PWorld * list plot_call)) (xs ys : list Q) :
  x (self s) = Some xs ->
  y (self s) = Some ys ->
  (forall c w, is_ok (snd (do_plot penv c w)) = true) ->
  snd (AirfoilPlots.draw penv draw_mcl draw_markers backend show s) =
  Ok (if String.eqb backend "plotly" && negb show
      then DrawFigure else DrawNone).
Proof.
  intros Hx Hy quiet. destruct s as [[w log] tr o].
  apply (draw_quiet penv quiet _ _ _ _ w log tr o xs ys Hx Hy).
Qed.

End RenderingClaims.

Section DrawReads.

Context {PWorld : Type} (penv : plotting PWorld).

(** X15: what [draw] does is a function of the name and of the columns [x]
    and [y] as they were assigned at construction: [self.coordinates], the
    dataset and the list of Reynolds numbers are not read. *)
Theorem draw_reads_name_and_columns
    (draw_mcl draw_markers : bool) (backend : string) (show : bool)
    (s1 s2 : state (PWorld * list plot_call)) :
  world s1 = world s2 ->
  name (self s1) = name (self s2) ->
  x (self s1) = x (self s2) ->
  y (self s1) = y (self s2) ->
  snd (AirfoilPlots.draw penv draw_mcl draw_markers backend show s1) =
  snd (AirfoilPlots.draw penv draw_mcl draw_markers backend show s2) /\
  world (fst (AirfoilPlots.draw penv draw_mcl draw_markers backend show s1)) =
  world (fst (AirfoilPlots.draw penv draw_mcl draw_markers backend show s2)).
Proof.
  destruct s1 as [[w1 l1] t1 o1], s2 as [[w2 l2] t2 o2].
  cbn [world self]. intros Hw Hn Hx Hy. inversion Hw; subst; clear Hw.
  unfold AirfoilPlots.draw, bind, AirfoilPlots.get_x, AirfoilPlots.get_y,
    get_name, AirfoilPlots.plt, ret.
  cbn [self world fst snd trace]. rewrite Hx.
  destruct (x o2) as [xs|]; [|split; reflexivity].
  cbn [self world fst snd trace]. rewrite Hy.
  destruct (y o2) as [ys|]; [|split; reflexivity].
  destruct show, draw_markers,
    (String.eqb backend "matplotlib"), (String.eqb backend "plotly");
    cbn [self world fst snd trace]; rewrite ?Hn;
    repeat
      (match goal with
       | |- context [do_plot penv ?c ?w] =>
           destruct (do_plot penv c w) as [? [[]|?]]
       end;
       cbn [self world fst snd trace]; rewrite ?Hn);
    split; reflexivity.
Qed.

End DrawReads.

(** An airfoil built from a file, drawn after its array was replaced. *)
Lemma draw_reads_name_and_columns_witness :
  snd (AirfoilPlots.draw quiet_plotting false true "matplotlib" true
         (mk_state (0%nat, []) [] Fake.wing)) =
  snd (AirfoilPlots.draw quiet_plotting false true "matplotlib" true
         (mk_state (0%nat, []) []
            (set_coordinates (PyArray []) Fake.wing))) /\
  world (fst (AirfoilPlots.draw quiet_plotting false true "matplotlib" true
                (mk_state (0%nat, []) [] Fake.wing))) =
  world (fst (AirfoilPlots.draw quiet_plotting false true "matplotlib" true
                (mk_state (0%nat, []) []
                   (set_coordinates (PyArray []) Fake.wing)))).
Proof.
  apply (draw_reads_name_and_columns quiet_plotting false true "matplotlib"
           true);
    reflexivity.
Defined.

(** The airfoil built from ["wing.dat"], plotted before any sweep. *)
Lemma plot_polars_needs_a_sweep_witness :
  AirfoilPlots.plot_polars quiet_plotting
    (mk_state (0%nat, []) [] Fake.wing) =
  (mk_state (1%nat, [PltSubplots 2 2 (9, 8)]) [] Fake.wing,
   Raise (AttributeError "polars")).
Proof.
  apply (plot_polars_needs_a_sweep Fake.env quiet_plotting
           "wing" (Some "wing.dat") 0%nat 0%nat [CallFile "wing.dat"]
           Fake.wing 0%nat [] []);
    reflexivity.
Defined.

(** A sweep at [1e4] and [1e6] with the solver of the fakes, then the
    plot: two curves in each panel and two labels. *)
Lemma plot_polars_after_sweep_witness :
  exists pw' new,
    AirfoilPlots.plot_polars quiet_plotting
      (mk_state (0%nat, [])
         (map (sweep_call Fake.wing 0 10 (1 # 4) 100 None) [10000; 1000000])
         (set_Res [10000; 1000000]
            (set_polars [Fake.curve 10000; Fake.curve 1000000] Fake.wing))) =
      (mk_state (pw', [] ++ new)
         (map (sweep_call Fake.wing 0 10 (1 # 4) 100 None) [10000; 1000000])
         (set_Res [10000; 1000000]
            (set_polars [Fake.curve 10000; Fake.curve 1000000] Fake.wing)),
       Ok tt) /\
    plots_on 0 0 new =
      map (fun d => (alpha d, CL d)) [Fake.curve 10000; Fake.curve 1000000] /\
    plots_on 0 1 new =
      map (fun d => (alpha d, CD d)) [Fake.curve 10000; Fake.curve 1000000] /\
    plots_on 1 0 new =
      map (fun d => (alpha d, CM d)) [Fake.curve 10000; Fake.curve 1000000] /\
    plots_on 1 1 new =
      map (fun d => (CL d, CD d)) [Fake.curve 10000; Fake.curve 1000000] /\
    legends new = [map (eng_string quiet_plotting) [10000; 1000000]] /\
    List.length [Fake.curve 10000; Fake.curve 1000000] =
    List.length [10000; 1000000].
Proof.
  apply (plot_polars_after_sweep Fake.env quiet_plotting 0 10 (1 # 4)
           [10000; 1000000] 100 20 None
           (mk_state 0%nat [] Fake.wing)
           (mk_state 2%nat
              (map (sweep_call Fake.wing 0 10 (1 # 4) 100 None)
                 [10000; 1000000])
              (set_Res [10000; 1000000]
                 (set_polars [Fake.curve 10000; Fake.curve 1000000]
                    Fake.wing)))
           [Fake.curve 10000; Fake.curve 1000000] 0%nat []).
  - reflexivity.
  - intros c w. reflexivity.
Defined.

(** The backend ["bokeh"] is not one [draw] knows. *)
Lemma draw_unknown_backend_witness :
  AirfoilPlots.draw quiet_plotting true true "bokeh" true
    (mk_state (0%nat, []) [] Fake.wing) =
  (mk_state (0%nat, []) [] Fake.wing, Ok DrawNone).
Proof.
  apply (draw_unknown_backend quiet_plotting true true "bokeh" true
           (mk_state (0%nat, []) [] Fake.wing)
           (map fst Fake.square) (map snd Fake.square));
    (reflexivity || discriminate).
Defined.

(** The airfoil of the fakes drawn with plotly and not shown. *)
Lemma draw_returns_the_unshown_plotly_figure_witness :
  snd (AirfoilPlots.draw quiet_plotting false true "plotly" false
         (mk_state (0%nat, []) [] Fake.wing)) =
  Ok (if String.eqb "plotly" "plotly" && negb false
      then DrawFigure else DrawNone).
Proof.
  apply (draw_returns_the_unshown_plotly_figure quiet_plotting false true
           "plotly" false (mk_state (0%nat, []) [] Fake.wing)
           (map fst Fake.square) (map snd Fake.square));
    [reflexivity | reflexivity | intros c w; reflexivity].
Defined.
